(** * langgraph-runtime-inmem-open: the in-memory store and checkpoint log

    A shallow embedding of [store.py] and [checkpoint.py]:
    - Python [str] is [string]; a namespace ([Tuple[str, ...]]) is a
      [list string];
    - a Python [dict] is an insertion-ordered association list with unique
      keys (module [PyDict]): [search] and [list_threads] enumerate it, so
      the order is part of the behaviour;
    - the [set] of namespaces is a [gset]: its iteration order is not
      specified by the language;
    - [float] is the primitive binary64 [float]; a value [time.time()]
      returned during a call is passed to the call as [now];
    - exceptions are a result type ([outcome]); the persistence file is an
      entry of a path-indexed file system holding a JSON document;
    - [!=] and [str] on arbitrary values are builtins of the language and
      are parameters of the development ([PyRuntime]).

    [StoreSpec] is the record table as the specification words it, keyed by
    the pair (namespace, leaf key); [search] is compared with it. *)

From Stdlib Require Import String Ascii ZArith Floats Bool.
From stdpp Require Import gmap strings list pretty.

Set Warnings "-register-all,-clear-no-such-hyp".

Local Open Scope string_scope.
Local Open Scope Z_scope.

(** ** Python values *)

(** The values a record or a checkpoint can hold ([Any], restricted to what
    [json] can write), with tuples kept apart from lists. *)
Inductive pyval : Type :=
| PyNone
| PyBool (b : bool)
| PyInt (n : Z)
| PyFloat (x : float)
| PyStr (s : string)
| PyList (xs : list pyval)
| PyTuple (xs : list pyval)
| PyDict (kvs : list (string * pyval)).

(** A [Dict[str, Any]]: the items of the dict, in insertion order. *)
Abbreviation record := (list (string * pyval)).

(** A namespace, [Tuple[str, ...]]. *)
Abbreviation namespace := (list string).

(** The builtins of the language that the code calls on arbitrary values:
    [a != b] and [str(a)]. *)
Class PyRuntime : Type := {
  py_ne : pyval -> pyval -> bool;
  py_str : pyval -> string
}.

(** ** Slices *)

(** [l[lo:hi]] with Python's treatment of negative and out-of-range bounds;
    [None] is an omitted bound. *)
Definition slice_index (len : Z) (i : Z) : Z :=
  if i <? 0 then Z.max (i + len) 0 else Z.min i len.

Definition py_slice {A} (lo hi : option Z) (l : list A) : list A :=
  let len := Z.of_nat (length l) in
  let lo' := match lo with Some i => slice_index len i | None => 0 end in
  let hi' := match hi with Some i => slice_index len i | None => len end in
  take (Z.to_nat (hi' - lo')) (drop (Z.to_nat lo') l).

(** ** Dictionaries *)

Module PyDict.
Section Defs.
Context {K V : Type} `{EqDecision K}.

(** [d.get(k)] *)
Fixpoint get (d : list (K * V)) (k : K) : option V :=
  match d with
  | [] => None
  | (k', v) :: d' => if decide (k' = k) then Some v else get d' k
  end.

(** [d[k] = v]: an existing key keeps its position, a new key goes last. *)
Fixpoint set (d : list (K * V)) (k : K) (v : V) : list (K * V) :=
  match d with
  | [] => [(k, v)]
  | (k', v') :: d' =>
      if decide (k' = k) then (k, v) :: d' else (k', v') :: set d' k v
  end.

(** [d.pop(k, None)], the result dropped. *)
Definition pop (d : list (K * V)) (k : K) : list (K * V) :=
  filter (fun kv => kv.1 <> k) d.

(** [k in d] *)
Definition contains (d : list (K * V)) (k : K) : bool :=
  bool_decide (is_Some (get d k)).

Definition keys (d : list (K * V)) : list K := d.*1.
Definition values (d : list (K * V)) : list V := d.*2.

(** The representation invariant of a dict: no key occurs twice. *)
Definition wf (d : list (K * V)) : Prop := NoDup (keys d).
End Defs.
End PyDict.

(** ** Namespace key codec *)

(** [sep.join(parts)] *)
Fixpoint join (sep : string) (parts : list string) : string :=
  match parts with
  | [] => ""
  | [x] => x
  | x :: xs => x +:+ sep +:+ join sep xs
  end.

(** [f"{':'.join(namespace)}:{key}"] *)
Definition _make_key (ns : namespace) (key : string) : string :=
  join ":" ns +:+ ":" +:+ key.

(** The key written segment by segment, the delimiter after each one; the
    empty namespace contributes the delimiter alone, as a single empty
    segment would. *)
Definition terminated (ns : namespace) : string :=
  foldr (fun s acc => s +:+ ":" +:+ acc) "" ns.

Definition padded (ns : namespace) : namespace :=
  match ns with [] => [""] | _ => ns end.

(** A non-empty namespace whose first segment is neither empty nor begins
    with the delimiter. *)
Definition ordinary (ns : namespace) : bool :=
  match ns with
  | [] => false
  | s :: _ => negb (String.prefix ":" s) && negb (String.eqb s "")
  end.

(** [s.startswith(p)] *)
Definition startswith (s p : string) : bool := String.prefix p s.

(** The delimiter does not occur in [s]. *)
Fixpoint colon_free (s : string) : bool :=
  match s with
  | EmptyString => true
  | String c s' => negb (Ascii.eqb c ":") && colon_free s'
  end.

(** A segment as the data model has it: non-empty, and free of the
    delimiter. *)
Definition segment_ok (s : string) : bool :=
  negb (String.eqb s "") && colon_free s.

Definition namespace_ok (ns : namespace) : bool := forallb segment_ok ns.

(** [ns[:len(p)] == p] *)
Definition has_prefix (p ns : namespace) : bool :=
  bool_decide (take (length p) ns = p).

(** [ns[-len(s):] == s] *)
Definition has_suffix (s ns : namespace) : bool :=
  bool_decide (py_slice (Some (- Z.of_nat (length s))) None ns = s).

(** ** A runtime for the closed examples *)

(** [a != b], [repr(a)] and [str(a)] as the language computes them on
    [None], booleans, integers, strings of printable characters other than
    the quote and the backslash, and lists, tuples and dicts of these; two
    floats are compared as IEEE numbers.  Mixed comparisons of a float with
    an integer and the printing of floats are outside this fragment: the
    examples below do not use them. *)
Fixpoint example_ne (a b : pyval) {struct a} : bool :=
  let fix differ (xs ys : list pyval) {struct xs} : bool :=
    match xs, ys with
    | [], [] => false
    | x :: xs', y :: ys' => example_ne x y || differ xs' ys'
    | _, _ => true
    end in
  let fix misses (kvs : list (string * pyval)) (other : record) {struct kvs}
      : bool :=
    match kvs with
    | [] => false
    | kv :: kvs' =>
        match PyDict.get other kv.1 with
        | Some v' => example_ne kv.2 v'
        | None => true
        end || misses kvs' other
    end in
  match a, b with
  | PyNone, PyNone => false
  | PyBool x, PyBool y => xorb x y
  | PyBool x, PyInt n | PyInt n, PyBool x => negb (n =? Z.b2z x)
  | PyInt n, PyInt m => negb (n =? m)
  | PyFloat x, PyFloat y => negb (PrimFloat.eqb x y)
  | PyStr s, PyStr t => negb (String.eqb s t)
  | PyList xs, PyList ys | PyTuple xs, PyTuple ys => differ xs ys
  | PyDict kvs, PyDict kvs' =>
      negb (Nat.eqb (length kvs) (length kvs')) || misses kvs kvs'
  | _, _ => true
  end.

Fixpoint example_repr (a : pyval) : string :=
  match a with
  | PyNone => "None"
  | PyBool true => "True"
  | PyBool false => "False"
  | PyInt n => pretty n
  | PyFloat _ => "nan"
  | PyStr s => "'" +:+ s +:+ "'"
  | PyList xs => "[" +:+ join ", " (List.map example_repr xs) +:+ "]"
  | PyTuple [x] => "(" +:+ example_repr x +:+ ",)"
  | PyTuple xs => "(" +:+ join ", " (List.map example_repr xs) +:+ ")"
  | PyDict kvs =>
      "{" +:+ join ", " (List.map (fun kv => "'" +:+ kv.1 +:+ "': "
                                            +:+ example_repr kv.2) kvs)
          +:+ "}"
  end.

Definition example_str (a : pyval) : string :=
  match a with
  | PyStr s => s
  | _ => example_repr a
  end.

Definition example_runtime : PyRuntime :=
  {| py_ne := example_ne; py_str := example_str |}.

(** ** Filter matcher *)

(** The loop of [_matches_filter]: the first pair whose field is missing
    from [value], or differs from it, answers [False]. *)
Fixpoint _matches_filter `{PyRuntime} (value filter_dict : record) : bool :=
  match filter_dict with
  | [] => true
  | (filter_key, filter_value) :: rest =>
      match PyDict.get value filter_key with
      | None => false
      | Some v =>
          if py_ne v filter_value then false else _matches_filter value rest
      end
  end.

(** ** InMemoryStore *)

Module InMemoryStore.

Record t : Type := mk {
  _data : list (string * record);
  _namespaces : gset namespace;
  _ttl_data : list (string * float);
  _index_config : option pyval
}.

(** [__init__]; [index] is the keyword argument [kwargs.get("index", None)]. *)
Definition init (index : option pyval) : t :=
  {| _data := []; _namespaces := ∅; _ttl_data := []; _index_config := index |}.

(** [refresh_ttl] is accepted and ignored. *)
Definition get (self : t) (ns : namespace) (key : string)
    (refresh_ttl : option bool) : option record :=
  let ns_key := _make_key ns key in
  PyDict.get (_data self) ns_key.

(** [now] is the value of [time.time()], read only when [ttl] is given;
    [index] is accepted and ignored. *)
Definition put (now : float) (self : t) (ns : namespace) (key : string)
    (value : record) (index : option pyval) (ttl : option float) : t :=
  let ns_key := _make_key ns key in
  {| _data := PyDict.set (_data self) ns_key value;
     _namespaces := {[ ns ]} ∪ _namespaces self;
     _ttl_data :=
       match ttl with
       | Some m => PyDict.set (_ttl_data self) ns_key (now + m * 60)%float
       | None => _ttl_data self
       end;
     _index_config := _index_config self |}.

Definition delete (self : t) (ns : namespace) (key : string) : t :=
  let ns_key := _make_key ns key in
  {| _data := PyDict.pop (_data self) ns_key;
     _namespaces := _namespaces self;
     _ttl_data := PyDict.pop (_ttl_data self) ns_key;
     _index_config := _index_config self |}.

(** The test of the loop body of [search] on one item of [_data]. *)
Definition selected `{PyRuntime} (prefix_str : string)
    (filter : option record) (item : string * record) : bool :=
  startswith item.1 prefix_str &&
  match filter with
  | None => true
  | Some f => _matches_filter item.2 f
  end.

(** [query] and [refresh_ttl] are accepted and ignored. *)
Definition search `{PyRuntime} (self : t) (namespace_prefix : namespace)
    (query : option string) (filter : option record) (limit offset : Z)
    (refresh_ttl : option bool) : list record :=
  let prefix_str := _make_key namespace_prefix "" in
  let results :=
    PyDict.values (List.filter (selected prefix_str filter) (_data self)) in
  py_slice (Some offset) (Some (offset + limit)) results.

Definition list_namespaces (self : t) (prefix suffix : option namespace)
    (max_depth : option Z) (limit offset : Z) : list namespace :=
  let namespaces := elements (_namespaces self) in
  let namespaces :=
    match prefix with
    | Some p => List.filter (has_prefix p) namespaces
    | None => namespaces
    end in
  let namespaces :=
    match suffix with
    | Some s => List.filter (has_suffix s) namespaces
    | None => namespaces
    end in
  let namespaces :=
    match max_depth with
    | Some d => List.filter (fun ns => Z.of_nat (length ns) <=? d) namespaces
    | None => namespaces
    end in
  py_slice (Some offset) (Some (offset + limit)) namespaces.

(** The defaults of the signatures. *)
Definition search_limit : Z := 10.
Definition list_namespaces_limit : Z := 100.

(** The calls a client can make, and the state each leaves. *)
Inductive op : Type :=
| Put (now : float) (ns : namespace) (key : string) (value : record)
      (index : option pyval) (ttl : option float)
| Delete (ns : namespace) (key : string)
| Get (ns : namespace) (key : string) (refresh_ttl : option bool)
| Search (namespace_prefix : namespace) (query : option string)
      (filter : option record) (limit offset : Z) (refresh_ttl : option bool)
| ListNamespaces (prefix suffix : option namespace) (max_depth : option Z)
      (limit offset : Z).

Definition step (self : t) (o : op) : t :=
  match o with
  | Put now ns key value index ttl => put now self ns key value index ttl
  | Delete ns key => delete self ns key
  | Get _ _ _ | Search _ _ _ _ _ _ | ListNamespaces _ _ _ _ _ => self
  end.

Definition run (self : t) (ops : list op) : t := foldl step self ops.

(** One hundred and one namespaces, [("0",)] to [("100",)], and a store
    that was given a record under each of them. *)
Definition many_namespaces : list namespace :=
  (fun i : nat => [pretty i]) <$> seq 0 101.

Definition crowded : t :=
  run (init None) ((fun ns => Put 0 ns "k" [] None None) <$> many_namespaces).

(** The trace only stores under ordinary namespaces. *)
Definition op_ordinary (o : op) : bool :=
  match o with
  | Put _ ns _ _ _ _ => ordinary ns
  | _ => true
  end.

(** Every key with an expiry entry has a record. *)
Definition expiry_owned (self : t) : Prop :=
  forall ns_key,
    is_Some (PyDict.get (_ttl_data self) ns_key) ->
    is_Some (PyDict.get (_data self) ns_key).

(** The states a store built by [init] can be in. *)
Definition reachable (self : t) : Prop :=
  exists index ops, self = run (init index) ops.

End InMemoryStore.

(** ** The record table as the specification words it *)

(** The table keyed by the pair (namespace, leaf key) itself, with the
    operations as the specification describes them.  [InMemoryStore] is
    compared with it. *)
Module StoreSpec.

Abbreviation t := (list ((namespace * string) * record)).

Definition put (m : t) (ns : namespace) (key : string) (value : record) : t :=
  PyDict.set m (ns, key) value.

Definition delete (m : t) (ns : namespace) (key : string) : t :=
  PyDict.pop m (ns, key).

Definition step (m : t) (o : InMemoryStore.op) : t :=
  match o with
  | InMemoryStore.Put _ ns key value _ _ => put m ns key value
  | InMemoryStore.Delete ns key => delete m ns key
  | _ => m
  end.

Definition run (m : t) (ops : list InMemoryStore.op) : t := foldl step m ops.

(** Every (field, expected) pair of the filter is present in the record
    with an equal value; an absent filter matches every record. *)
Definition matches `{PyRuntime} (r : record) (F : option record) : bool :=
  match F with
  | None => true
  | Some f =>
      forallb (fun fe =>
                 match PyDict.get r fe.1 with
                 | Some v => negb (py_ne v fe.2)
                 | None => false
                 end) f
  end.

(** The records stored at a namespace whose path starts with [p] and that
    match [F], in the order of the table. *)
Definition search `{PyRuntime} (m : t) (p : namespace) (F : option record)
    : list record :=
  PyDict.values
    (List.filter (fun e => has_prefix p e.1.1 && matches e.2 F) m).

(** A pair (namespace, leaf key) without the delimiter and without an empty
    segment, and the item of [_data] an entry of the table stands for. *)
Definition key_ok (nk : namespace * string) : bool :=
  namespace_ok nk.1 && colon_free nk.2.

Definition composite (e : (namespace * string) * record) : string * record :=
  (_make_key e.1.1 e.1.2, e.2).

(** The calls of a trace name only segments and leaf keys without the
    delimiter, and no empty segment. *)
Definition op_ok (o : InMemoryStore.op) : bool :=
  match o with
  | InMemoryStore.Put _ ns key _ _ _ | InMemoryStore.Delete ns key =>
      namespace_ok ns && colon_free key
  | _ => true
  end.

End StoreSpec.

(** ** JSON documents *)

Inductive json : Type :=
| JNull
| JBool (b : bool)
| JInt (n : Z)
| JFloat (x : float)
| JStr (s : string)
| JArr (xs : list json)
| JObj (kvs : list (string * json)).

(** What [json.dump] writes for a value: lists and tuples are both arrays. *)
Fixpoint json_dump (v : pyval) : json :=
  match v with
  | PyNone => JNull
  | PyBool b => JBool b
  | PyInt n => JInt n
  | PyFloat x => JFloat x
  | PyStr s => JStr s
  | PyList xs | PyTuple xs => JArr (List.map json_dump xs)
  | PyDict kvs => JObj (List.map (fun kv => (kv.1, json_dump kv.2)) kvs)
  end.

(** What [json.load] builds from a document: an array is a list, and of a
    repeated member name the last value is kept. *)
Fixpoint json_load (j : json) : pyval :=
  match j with
  | JNull => PyNone
  | JBool b => PyBool b
  | JInt n => PyInt n
  | JFloat x => PyFloat x
  | JStr s => PyStr s
  | JArr xs => PyList (List.map json_load xs)
  | JObj kvs =>
      PyDict (List.fold_left
                (fun d kv => PyDict.set d kv.1 (json_load kv.2)) kvs [])
  end.

(** [hash(v)] does not raise. *)
Fixpoint hashable (v : pyval) : bool :=
  match v with
  | PyList _ | PyDict _ => false
  | PyTuple xs => forallb hashable xs
  | _ => true
  end.

(** ** Exceptions *)

Inductive exn : Type := TypeError | AttributeError.

(** The result of a call: a value, an exception that leaves the call, or
    [Untyped] when a loaded value has not the type the annotations give the
    attribute (the run is not followed further). *)
Inductive outcome (A : Type) : Type :=
| Ok (a : A)
| Raise (e : exn)
| Untyped.
Arguments Ok {A} a.
Arguments Raise {A} e.
Arguments Untyped {A}.

#[global] Instance outcome_bind : MBind outcome := fun A B f m =>
  match m with
  | Ok a => f a
  | Raise e => Raise e
  | Untyped => Untyped
  end.

Definition of_typed {A} (o : option A) : outcome A :=
  match o with Some a => Ok a | None => Untyped end.

(** The readings of loaded values at the annotated types. *)
Definition as_str (v : pyval) : option string :=
  match v with PyStr s => Some s | _ => None end.

Definition as_record (v : pyval) : option record :=
  match v with PyDict kvs => Some kvs | _ => None end.

Definition as_float (v : pyval) : option float :=
  match v with PyFloat x => Some x | _ => None end.

Definition as_namespace (v : pyval) : option namespace :=
  match v with PyTuple xs => mapM as_str xs | _ => None end.

Definition as_dict {A} (f : pyval -> option A) (v : pyval)
    : option (list (string * A)) :=
  match v with
  | PyDict kvs => mapM (fun kv => pair kv.1 <$> f kv.2) kvs
  | _ => None
  end.

(** [set(v)] for the namespace attribute: the elements are hashed one by
    one, and a list among them raises [TypeError]. *)
Definition py_set (v : pyval) : outcome (gset namespace) :=
  match v with
  | PyList xs | PyTuple xs =>
      if forallb hashable xs
      then match mapM as_namespace xs with
           | Some nss => Ok (list_to_set nss)
           | None => Untyped
           end
      else Raise TypeError
  | PyDict [] | PyStr "" => Ok ∅
  | PyDict _ | PyStr _ => Untyped
  | _ => Raise TypeError
  end.

(** ** DiskBackedInMemStore *)

(** What a path of the file system holds: text that [json.load] rejects, or
    a document. *)
Inductive file : Type :=
| Unparsable
| Document (j : json).

Abbreviation fs := (gmap string file).

(** [if persist_path:] *)
Definition truthy (p : option string) : bool :=
  match p with
  | Some s => negb (String.eqb s "")
  | None => false
  end.

Module DiskBackedInMemStore.
Import InMemoryStore.

Record t : Type := mk {
  base : InMemoryStore.t;
  persist_path : option string
}.

(** The dict [data] that [_save_to_disk] hands to [json.dump]. *)
Definition snapshot (self : t) : pyval :=
  PyDict
    [ ("data", PyDict (List.map (fun kv => (kv.1, PyDict kv.2))
                         (_data (base self))));
      ("namespaces",
         PyList (List.map (fun ns => PyTuple (List.map PyStr ns))
                   (elements (_namespaces (base self)))));
      ("ttl_data", PyDict (List.map (fun kv => (kv.1, PyFloat kv.2))
                             (_ttl_data (base self)))) ].

Definition _save_to_disk (self : t) (disk : fs) : fs :=
  match persist_path self with
  | Some path =>
      if truthy (persist_path self)
      then <[ path := Document (json_dump (snapshot self)) ]> disk
      else disk
  | None => disk
  end.

(** [data.get(name, default)] on the loaded dict. *)
Definition member (data : record) (name : string) (default : pyval) : pyval :=
  match PyDict.get data name with
  | Some v => v
  | None => default
  end.

(** A missing file and an unparsable one are caught; any other exception
    leaves the call. *)
Definition _load_from_disk (self : t) (disk : fs) : outcome t :=
  match persist_path self with
  | None => Raise TypeError
  | Some path =>
      match disk !! path with
      | None | Some Unparsable => Ok self
      | Some (Document j) =>
          match json_load j with
          | PyDict data =>
              d ← of_typed (as_dict as_record (member data "data" (PyDict [])));
              n ← py_set (member data "namespaces" (PyList []));
              x ← of_typed (as_dict as_float (member data "ttl_data" (PyDict [])));
              Ok {| base := {| _data := d;
                               _namespaces := n;
                               _ttl_data := x;
                               _index_config := _index_config (base self) |};
                    persist_path := persist_path self |}
          | _ => Raise AttributeError
          end
      end
  end.

Definition init (persist_path : option string) (index : option pyval)
    (disk : fs) : outcome t :=
  let self := {| base := InMemoryStore.init index;
                 persist_path := persist_path |} in
  if truthy persist_path then _load_from_disk self disk else Ok self.

Definition put (now : float) (self : t) (disk : fs) (ns : namespace)
    (key : string) (value : record) (index : option pyval)
    (ttl : option float) : t * fs :=
  let self := {| base := InMemoryStore.put now (base self) ns key value index ttl;
                 persist_path := persist_path self |} in
  (self, _save_to_disk self disk).

Definition delete (self : t) (disk : fs) (ns : namespace) (key : string)
    : t * fs :=
  let self := {| base := InMemoryStore.delete (base self) ns key;
                 persist_path := persist_path self |} in
  (self, _save_to_disk self disk).

End DiskBackedInMemStore.

(** ** MemorySaver *)

Module MemorySaver.

(** The dict [{"timestamp": ..., "size": ...}]. *)
Record metadata : Type := mk_metadata {
  timestamp : float;
  size : Z
}.

Record t : Type := mk {
  _checkpoints : list (string * record);
  _metadata : list (string * metadata)
}.

Definition init : t := {| _checkpoints := []; _metadata := [] |}.

Definition get (self : t) (thread_id : string) : option record :=
  PyDict.get (_checkpoints self) thread_id.

(** [now] is the value of [time.time()] read by the call. *)
Definition put `{PyRuntime} (now : float) (self : t) (thread_id : string)
    (checkpoint : record) : t :=
  {| _checkpoints := PyDict.set (_checkpoints self) thread_id checkpoint;
     _metadata :=
       PyDict.set (_metadata self) thread_id
         {| timestamp := now;
            size := Z.of_nat (String.length (py_str (PyDict checkpoint))) |} |}.

Definition delete (self : t) (thread_id : string) : t :=
  {| _checkpoints := PyDict.pop (_checkpoints self) thread_id;
     _metadata := PyDict.pop (_metadata self) thread_id |}.

Definition list_threads (self : t) : list string :=
  PyDict.keys (_checkpoints self).

Definition get_metadata (self : t) (thread_id : string) : option metadata :=
  PyDict.get (_metadata self) thread_id.

Definition clear_all (self : t) : t := {| _checkpoints := []; _metadata := [] |}.

End MemorySaver.

(** [__len__] and [__contains__] of [MemorySaver]. *)
Definition saver_len (self : MemorySaver.t) : Z :=
  Z.of_nat (length (MemorySaver._checkpoints self)).

Definition saver_contains (self : MemorySaver.t) (thread_id : string) : bool :=
  PyDict.contains (MemorySaver._checkpoints self) thread_id.

(** The calls a client can make on a [MemorySaver], and the state each
    leaves. *)
Inductive saver_op : Type :=
| SaverPut (now : float) (thread_id : string) (checkpoint : record)
| SaverDelete (thread_id : string)
| SaverClearAll
| SaverGet (thread_id : string)
| SaverListThreads
| SaverGetMetadata (thread_id : string).

Definition saver_step `{PyRuntime} (self : MemorySaver.t) (o : saver_op)
    : MemorySaver.t :=
  match o with
  | SaverPut now thread_id checkpoint =>
      MemorySaver.put now self thread_id checkpoint
  | SaverDelete thread_id => MemorySaver.delete self thread_id
  | SaverClearAll => MemorySaver.clear_all self
  | SaverGet _ | SaverListThreads | SaverGetMetadata _ => self
  end.

Definition saver_run `{PyRuntime} (self : MemorySaver.t)
    (ops : list saver_op) : MemorySaver.t :=
  foldl saver_step self ops.

(** The checkpoints and the metadata are kept under the same thread ids, in
    the same order, and no thread id twice. *)
Definition aligned (self : MemorySaver.t) : Prop :=
  PyDict.keys (MemorySaver._checkpoints self) = PyDict.keys (MemorySaver._metadata self) /\
  PyDict.wf (MemorySaver._checkpoints self).

(** A value that [json] writes and reads back unchanged: no tuple in it,
    and no member name twice in a dict. *)
Fixpoint json_shaped (v : pyval) : bool :=
  match v with
  | PyTuple _ => false
  | PyList xs => forallb json_shaped xs
  | PyDict kvs =>
      bool_decide (NoDup kvs.*1) && forallb (fun kv => json_shaped kv.2) kvs
  | _ => true
  end.

(** The checkpoints a trace stores are dicts that [json] reads back
    unchanged. *)
Definition saver_op_shaped (o : saver_op) : bool :=
  match o with
  | SaverPut _ _ checkpoint => json_shaped (PyDict checkpoint)
  | _ => true
  end.

(** ** DiskBackedMemorySaver *)

Module DiskBackedMemorySaver.
Import MemorySaver.

Record t : Type := mk {
  base : MemorySaver.t;
  persist_path : option string
}.

(** The metadata dict as a value, and its reading back at the type of the
    attribute. *)
Definition metadata_value (md : metadata) : pyval :=
  PyDict [("timestamp", PyFloat (timestamp md)); ("size", PyInt (size md))].

Definition as_metadata (v : pyval) : option metadata :=
  match v with
  | PyDict [("timestamp", PyFloat x); ("size", PyInt n)]
  | PyDict [("size", PyInt n); ("timestamp", PyFloat x)] =>
      Some {| timestamp := x; size := n |}
  | _ => None
  end.

(** The dict [data] that [_save_to_disk] hands to [json.dump]. *)
Definition snapshot (self : t) : pyval :=
  PyDict
    [ ("checkpoints", PyDict (List.map (fun kv => (kv.1, PyDict kv.2))
                                (_checkpoints (base self))));
      ("metadata", PyDict (List.map (fun kv => (kv.1, metadata_value kv.2))
                             (_metadata (base self)))) ].

Definition _save_to_disk (self : t) (disk : fs) : fs :=
  match persist_path self with
  | Some path =>
      if truthy (persist_path self)
      then <[ path := Document (json_dump (snapshot self)) ]> disk
      else disk
  | None => disk
  end.

(** A missing file and an unparsable one are caught; a document that is
    not an object has no [get]. *)
Definition _load_from_disk (self : t) (disk : fs) : outcome t :=
  match persist_path self with
  | None => Raise TypeError
  | Some path =>
      match disk !! path with
      | None | Some Unparsable => Ok self
      | Some (Document j) =>
          match json_load j with
          | PyDict data =>
              c ← of_typed (as_dict as_record
                              (DiskBackedInMemStore.member data "checkpoints"
                                 (PyDict [])));
              m ← of_typed (as_dict as_metadata
                              (DiskBackedInMemStore.member data "metadata"
                                 (PyDict [])));
              Ok {| base := {| _checkpoints := c; _metadata := m |};
                    persist_path := persist_path self |}
          | _ => Raise AttributeError
          end
      end
  end.

Definition init (persist_path : option string) (disk : fs) : outcome t :=
  let self := {| base := MemorySaver.init; persist_path := persist_path |} in
  if truthy persist_path then _load_from_disk self disk else Ok self.

Definition put `{PyRuntime} (now : float) (self : t) (disk : fs)
    (thread_id : string) (checkpoint : record) : t * fs :=
  let self := {| base := MemorySaver.put now (base self) thread_id checkpoint;
                 persist_path := persist_path self |} in
  (self, _save_to_disk self disk).

Definition delete (self : t) (disk : fs) (thread_id : string) : t * fs :=
  let self := {| base := MemorySaver.delete (base self) thread_id;
                 persist_path := persist_path self |} in
  (self, _save_to_disk self disk).

Definition clear_all (self : t) (disk : fs) : t * fs :=
  let self := {| base := MemorySaver.clear_all (base self);
                 persist_path := persist_path self |} in
  (self, _save_to_disk self disk).

Definition step `{PyRuntime} (st : t * fs) (o : saver_op) : t * fs :=
  match o with
  | SaverPut now thread_id checkpoint =>
      put now st.1 st.2 thread_id checkpoint
  | SaverDelete thread_id => delete st.1 st.2 thread_id
  | SaverClearAll => clear_all st.1 st.2
  | SaverGet _ | SaverListThreads | SaverGetMetadata _ => st
  end.

Definition run `{PyRuntime} (st : t * fs) (ops : list saver_op) : t * fs :=
  foldl step st ops.

End DiskBackedMemorySaver.

(** ** CheckpointContext *)

(** The handle holds the thread id; the saver it refers to is the state the
    calls of the handle act on. *)
Module CheckpointContext.

Record t : Type := mk { thread_id : string }.

Definition save `{PyRuntime} (now : float) (self : t)
    (saver : MemorySaver.t) (checkpoint : record) : MemorySaver.t :=
  MemorySaver.put now saver (thread_id self) checkpoint.

Definition load (self : t) (saver : MemorySaver.t) : option record :=
  MemorySaver.get saver (thread_id self).

End CheckpointContext.

(** [MemorySaver.__enter__]: the handle of a [with saver] block. *)
Definition saver_enter (self : MemorySaver.t) : CheckpointContext.t :=
  {| CheckpointContext.thread_id := "default" |}.

(** [checkpoint_context(saver, thread_id)]: the handle it yields. *)
Definition checkpoint_context (saver : MemorySaver.t) (thread_id : string)
    : CheckpointContext.t :=
  {| CheckpointContext.thread_id := thread_id |}.

(** ** Traces of a DiskBackedInMemStore *)

Definition disk_step (st : DiskBackedInMemStore.t * fs)
    (o : InMemoryStore.op) : DiskBackedInMemStore.t * fs :=
  match o with
  | InMemoryStore.Put now ns key value index ttl =>
      DiskBackedInMemStore.put now st.1 st.2 ns key value index ttl
  | InMemoryStore.Delete ns key => DiskBackedInMemStore.delete st.1 st.2 ns key
  | _ => st
  end.

Definition disk_run (st : DiskBackedInMemStore.t * fs)
    (ops : list InMemoryStore.op) : DiskBackedInMemStore.t * fs :=
  foldl disk_step st ops.

Definition is_put (o : InMemoryStore.op) : bool :=
  match o with InMemoryStore.Put _ _ _ _ _ _ => true | _ => false end.

(** The file at the path is absent and the store is as built, or the file
    is the snapshot of the store; a store that knows no namespace is as
    built. *)
Definition mirrored (path : string) (index : option pyval)
    (st : DiskBackedInMemStore.t * fs) : Prop :=
  let self := DiskBackedInMemStore.base st.1 in
  DiskBackedInMemStore.persist_path st.1 = Some path /\
  (InMemoryStore._namespaces self = ∅ -> self = InMemoryStore.init index) /\
  ((st.2 !! path = None /\ self = InMemoryStore.init index) \/
   st.2 !! path
   = Some (Document (json_dump (DiskBackedInMemStore.snapshot st.1)))).

(** The state of a [DiskBackedMemorySaver] on [path] along a trace: no
    thread id twice, checkpoints that [json] reads back unchanged, and the
    file at the path either absent, with the saver as built, or the
    snapshot of the saver. *)
Definition saver_mirrored (path : string)
    (st : DiskBackedMemorySaver.t * fs) : Prop :=
  let self := DiskBackedMemorySaver.base st.1 in
  DiskBackedMemorySaver.persist_path st.1 = Some path /\
  PyDict.wf (MemorySaver._checkpoints self) /\
  PyDict.wf (MemorySaver._metadata self) /\
  Forall (fun kv => json_shaped (PyDict kv.2) = true)
    (MemorySaver._checkpoints self) /\
  ((st.2 !! path = None /\ self = MemorySaver.init) \/
   st.2 !! path
   = Some (Document (json_dump (DiskBackedMemorySaver.snapshot st.1)))).

(** ** The lint script *)

Module Lint.

Record Linter : Type := mk {
  name : string;
  command : list string;
  description : string
}.

(** What [subprocess.run] does with a command: the executable is not found,
    or the process completes with a return code and its two outputs. *)
Inductive completed : Type :=
| NotFound
| Completed (returncode : Z) (stdout stderr : string).

(** [Linter.run(target)] *)
Definition run (subprocess_run : list string -> completed) (self : Linter)
    (target : string) : bool * string :=
  match subprocess_run (command self ++ [target])%list with
  | Completed returncode stdout stderr => (returncode =? 0, stdout +:+ stderr)
  | NotFound =>
      (false, "Error: " +:+ name self +:+ " not found. Install with: pip install "
                +:+ name self)
  end.

Definition setup_linters : list Linter :=
  [ mk "black" ["black"; "--check"; "--diff"] "Code formatting check";
    mk "isort" ["isort"; "--check-only"; "--diff"] "Import sorting check";
    mk "flake8" ["flake8"] "Style and error checking";
    mk "mypy" ["mypy"; "langgraph_runtime_inmem_open"] "Type checking";
    mk "pylint" ["pylint"; "langgraph_runtime_inmem_open"]
      "Comprehensive code analysis" ].

Definition pytest_command : list string :=
  ["pytest"; "--cov=langgraph_runtime_inmem_open"; "--cov-report=term-missing"].

Definition run_tests (subprocess_run : list string -> completed)
    : bool * string :=
  match subprocess_run pytest_command with
  | Completed returncode stdout stderr => (returncode =? 0, stdout +:+ stderr)
  | NotFound =>
      (false, "Error: pytest not found. Install with: pip install pytest pytest-cov")
  end.

(** The dict [results] of [main] when the summary is printed. *)
Definition results (subprocess_run : list string -> completed)
    : list (string * (bool * string)) :=
  let results :=
    foldl (fun results linter =>
             PyDict.set results (name linter) (run subprocess_run linter "."))
      [] setup_linters in
  PyDict.set results "pytest" (run_tests subprocess_run).

(** The value [main] returns (the exit code of the script); what it prints
    is not modelled. *)
Definition main (subprocess_run : list string -> completed) : Z :=
  if forallb (fun entry => entry.2.1) (results subprocess_run) then 0 else 1.

(** The commands the script runs, in the order it runs them. *)
Definition commands : list (list string) :=
  (((fun linter => command linter ++ ["."]) <$> setup_linters)
   ++ [pytest_command])%list.

End Lint.

(** * Facts *)

(** ** Strings and the codec *)

Local Arguments String.append : simpl nomatch.

Section codec_facts.
Implicit Types (s t x y k : string) (ns p : namespace).

Lemma colon_free_cons c s :
  colon_free (String c s) = true <-> c <> ":"%char /\ colon_free s = true.
Proof.
  simpl. rewrite andb_true_iff, negb_true_iff.
  destruct (Ascii.eqb_spec c ":"%char); intuition congruence.
Qed.

(** Two delimiter-free segments, each followed by the delimiter, can only
    start the same string when they are the same segment. *)
Lemma segment_split s t x y :
  colon_free s = true -> colon_free t = true ->
  s +:+ ":" +:+ x = t +:+ ":" +:+ y -> s = t /\ x = y.
Proof.
  revert t. induction s as [|c s IH]; intros [|d t] Hs Ht; simpl.
  - intros [= ->]. done.
  - apply colon_free_cons in Ht as [Hd _]. intros [= <- _]. done.
  - apply colon_free_cons in Hs as [Hc _]. intros [= -> _]. done.
  - apply colon_free_cons in Hs as [_ Hs]. apply colon_free_cons in Ht as [_ Ht].
    intros [= -> Heq]. destruct (IH t Hs Ht Heq) as [-> ->]. done.
Qed.

Lemma segment_not_in_key s x k :
  colon_free k = true -> k <> s +:+ ":" +:+ x.
Proof.
  revert k. induction s as [|c s IH]; intros [|d k] Hk; simpl; try done.
  - apply colon_free_cons in Hk as [Hd _]. congruence.
  - apply colon_free_cons in Hk as [_ Hk]. intros [= -> Heq]. by eapply IH.
Qed.

Lemma prefix_String c d s t :
  String.prefix (String c s) (String d t)
  = bool_decide (c = d) && String.prefix s t.
Proof. simpl. destruct (Ascii.ascii_dec c d); by case_bool_decide. Qed.

Lemma prefix_segment s t x y :
  colon_free s = true -> colon_free t = true ->
  String.prefix (s +:+ ":" +:+ x) (t +:+ ":" +:+ y)
  = bool_decide (s = t) && String.prefix x y.
Proof.
  revert t. induction s as [|c s IH]; intros [|d t] Hs Ht.
  - change (String.prefix (String ":" x) (String ":" y) = String.prefix x y).
    by rewrite prefix_String, bool_decide_eq_true_2.
  - apply colon_free_cons in Ht as [Hd _].
    change (String.prefix (String ":" x) (String d (t +:+ ":" +:+ y)) = false).
    rewrite prefix_String, bool_decide_eq_false_2; [done|congruence].
  - apply colon_free_cons in Hs as [Hc _].
    change (String.prefix (String c (s +:+ ":" +:+ x)) (String ":" y) = false).
    rewrite prefix_String, bool_decide_eq_false_2; [done|congruence].
  - apply colon_free_cons in Hs as [_ Hs]. apply colon_free_cons in Ht as [_ Ht].
    change (String.prefix (String c (s +:+ ":" +:+ x))
              (String d (t +:+ ":" +:+ y))
            = bool_decide (String c s = String d t) && String.prefix x y).
    rewrite prefix_String, IH by done.
    destruct (decide (c = d)) as [->|Hne].
    + rewrite bool_decide_eq_true_2 by done. simpl. f_equal.
      apply bool_decide_ext. split; [by intros ->|by intros [= ->]].
    + rewrite (bool_decide_eq_false_2 (c = d)) by done.
      rewrite (bool_decide_eq_false_2 (String c s = String d t)); [done|].
      by intros [= ? ?].
Qed.

Lemma prefix_segment_key s x k :
  colon_free k = true -> String.prefix (s +:+ ":" +:+ x) k = false.
Proof.
  revert k. induction s as [|c s IH]; intros [|d k] Hk; try done.
  - apply colon_free_cons in Hk as [Hd _].
    change (String.prefix (String ":" x) (String d k) = false).
    rewrite prefix_String, bool_decide_eq_false_2; [done|congruence].
  - apply colon_free_cons in Hk as [_ Hk].
    change (String.prefix (String c (s +:+ ":" +:+ x)) (String d k) = false).
    rewrite prefix_String, IH by done. apply andb_false_r.
Qed.

Lemma append_assoc s t x : (s +:+ t) +:+ x = s +:+ t +:+ x.
Proof. induction s; simpl; congruence. Qed.

Lemma join_cons s ns :
  join ":" (s :: ns) +:+ ":" = s +:+ ":" +:+ terminated ns.
Proof.
  revert s. induction ns as [|t ns IH]; intros s; [done|].
  change (join ":" (s :: t :: ns)) with (s +:+ ":" +:+ join ":" (t :: ns)).
  change (terminated (t :: ns)) with (t +:+ ":" +:+ terminated ns).
  by rewrite <- (IH t), !append_assoc.
Qed.

(** The composite key, segment by segment. *)
Lemma make_key_terminated ns k :
  _make_key ns k = terminated (padded ns) +:+ k.
Proof.
  unfold _make_key. destruct ns as [|s ns]; [done|].
  rewrite <- append_assoc, join_cons. simpl. by rewrite !append_assoc.
Qed.

Lemma terminated_inj ns1 ns2 k1 k2 :
  forallb colon_free ns1 = true -> forallb colon_free ns2 = true ->
  colon_free k1 = true -> colon_free k2 = true ->
  terminated ns1 +:+ k1 = terminated ns2 +:+ k2 -> ns1 = ns2 /\ k1 = k2.
Proof.
  revert ns2. induction ns1 as [|s ns1 IH]; intros [|t ns2] H1 H2 Hk1 Hk2; simpl.
  - done.
  - rewrite append_assoc. intros Heq. by apply segment_not_in_key in Heq.
  - rewrite append_assoc. intros Heq. symmetry in Heq.
    by apply segment_not_in_key in Heq.
  - simpl in H1, H2. apply andb_true_iff in H1 as [Hs H1].
    apply andb_true_iff in H2 as [Ht H2].
    rewrite !append_assoc. intros Heq.
    apply segment_split in Heq as [-> Heq]; [|done..].
    by destruct (IH ns2 H1 H2 Hk1 Hk2 Heq) as [-> ->].
Qed.

Lemma segment_ok_colon_free s : segment_ok s = true -> colon_free s = true.
Proof. unfold segment_ok. by intros [_ ?]%andb_true_iff. Qed.

Lemma namespace_ok_colon_free ns :
  namespace_ok ns = true -> forallb colon_free ns = true.
Proof.
  unfold namespace_ok. rewrite !forallb_forall.
  intros H s Hs. by apply segment_ok_colon_free, H.
Qed.

Lemma namespace_ok_padded ns :
  namespace_ok ns = true -> forallb colon_free (padded ns) = true.
Proof. destruct ns; [done|]. apply namespace_ok_colon_free. Qed.

Lemma padded_inj ns1 ns2 :
  namespace_ok ns1 = true -> namespace_ok ns2 = true ->
  padded ns1 = padded ns2 -> ns1 = ns2.
Proof.
  destruct ns1 as [|s ns1], ns2 as [|t ns2]; simpl; try done.
  - intros _ [Ht _]%andb_true_iff [= <- <-]. done.
  - intros [Hs _]%andb_true_iff _ [= -> ->]. done.
Qed.

(** On well-formed pairs the composite key determines the pair. *)
Lemma make_key_ok_inj ns1 k1 ns2 k2 :
  namespace_ok ns1 = true -> namespace_ok ns2 = true ->
  colon_free k1 = true -> colon_free k2 = true ->
  _make_key ns1 k1 = _make_key ns2 k2 -> ns1 = ns2 /\ k1 = k2.
Proof.
  intros H1 H2 Hk1 Hk2. rewrite !make_key_terminated. intros Heq.
  apply terminated_inj in Heq as [Hns ->]; auto using namespace_ok_padded.
  split; [|done]. by apply padded_inj.
Qed.

End codec_facts.

(** C1, as stated, fails: the composite key is not injective on arbitrary
    strings.  The namespace [("a:b",)] with leaf key ["c"] and the namespace
    [("a",)] with leaf key ["b:c"] both give ["a:b:c"]. *)
Lemma make_key_collision :
  ~ (forall ns1 k1 ns2 k2,
       _make_key ns1 k1 = _make_key ns2 k2 -> ns1 = ns2 /\ k1 = k2).
Proof.
  intros Hinj.
  assert (_make_key ["a:b"] "c" = _make_key ["a"] "b:c") as Heq by reflexivity.
  apply Hinj in Heq as [Hns _]. discriminate Hns.
Qed.

(** C1, amended: on namespaces whose segments are non-empty and free of the
    delimiter, and leaf keys free of the delimiter, equal composite keys
    come from equal namespaces and equal leaf keys. *)
Theorem make_key_injective ns1 k1 ns2 k2 :
  namespace_ok ns1 = true -> namespace_ok ns2 = true ->
  colon_free k1 = true -> colon_free k2 = true ->
  _make_key ns1 k1 = _make_key ns2 k2 -> ns1 = ns2 /\ k1 = k2.
Proof.
  intros H1 H2 Hk1 Hk2. rewrite !make_key_terminated. intros Heq.
  apply terminated_inj in Heq as [Hns ->]; auto using namespace_ok_padded.
  split; [|done]. by apply padded_inj.
Qed.

Lemma make_key_injective_witness :
  namespace_ok ["user"; "1"] = true /\ colon_free "profile" = true /\
  (["user"; "1"] = ["user"; "1"] /\ "profile" = "profile").
Proof.
  split; [reflexivity|]. split; [reflexivity|].
  apply (make_key_injective ["user"; "1"] "profile" ["user"; "1"] "profile");
    reflexivity.
Defined.

(** ** Dictionaries *)

Section dict_facts.
Context {K V : Type} `{EqDecision K}.
Implicit Types (d : list (K * V)) (k : K) (v : V).

Lemma get_set_eq d k v : PyDict.get (PyDict.set d k v) k = Some v.
Proof.
  induction d as [|[k' v'] d IH]; simpl.
  - by rewrite decide_True.
  - destruct (decide (k' = k)) as [->|Hne]; simpl.
    + by rewrite decide_True.
    + by rewrite decide_False.
Qed.

Lemma get_set_ne d k k' v :
  k <> k' -> PyDict.get (PyDict.set d k v) k' = PyDict.get d k'.
Proof.
  intros Hne. induction d as [|[k0 v0] d IH]; simpl.
  - by rewrite decide_False.
  - destruct (decide (k0 = k)) as [->|Hne0]; simpl.
    + by rewrite !decide_False.
    + by rewrite IH.
Qed.

Lemma get_None_keys d k : PyDict.get d k = None <-> k ∉ PyDict.keys d.
Proof.
  unfold PyDict.keys. induction d as [|[k' v'] d IH]; simpl.
  - split; [intros _; apply not_elem_of_nil|done].
  - rewrite not_elem_of_cons. destruct (decide (k' = k)) as [->|Hne].
    + split; [done|]. by intros [? _].
    + rewrite IH. naive_solver.
Qed.

Lemma keys_pop d k k' :
  k' ∈ PyDict.keys (PyDict.pop d k) <-> k' <> k /\ k' ∈ PyDict.keys d.
Proof.
  unfold PyDict.keys, PyDict.pop. rewrite !list_elem_of_fmap. split.
  - intros [[k0 v0] [-> [Hne Hin]%list_elem_of_filter]]. split; [done|].
    by exists (k0, v0).
  - intros [Hne [[k0 v0] [-> Hin]]]. exists (k0, v0). split; [done|].
    by apply list_elem_of_filter.
Qed.

Lemma get_pop_eq d k : PyDict.get (PyDict.pop d k) k = None.
Proof. apply get_None_keys. rewrite keys_pop. naive_solver. Qed.

Lemma get_pop_ne d k k' :
  k <> k' -> PyDict.get (PyDict.pop d k) k' = PyDict.get d k'.
Proof.
  intros Hne. unfold PyDict.pop. induction d as [|[k0 v0] d IH]; [done|].
  rewrite filter_cons. simpl. destruct (decide (k0 <> k)) as [Hk|Hk]; simpl.
  - by rewrite IH.
  - apply dec_stable in Hk as ->. by rewrite decide_False.
Qed.

(** Popping a key the dict does not have leaves the dict as it is. *)
Lemma pop_absent d k : PyDict.get d k = None -> PyDict.pop d k = d.
Proof.
  unfold PyDict.pop. induction d as [|[k' v'] d IH]; [done|]. simpl.
  destruct (decide (k' = k)) as [->|Hne]; [done|]. intros Hget.
  rewrite filter_cons, decide_True by done. by rewrite IH.
Qed.

Lemma pop_pop d k : PyDict.pop (PyDict.pop d k) k = PyDict.pop d k.
Proof. apply pop_absent, get_pop_eq. Qed.

Lemma keys_set d k v k' :
  k' ∈ PyDict.keys (PyDict.set d k v) <-> k' = k \/ k' ∈ PyDict.keys d.
Proof.
  unfold PyDict.keys. induction d as [|[k0 v0] d IH]; simpl.
  - rewrite list_elem_of_singleton. set_solver.
  - destruct (decide (k0 = k)) as [->|Hne]; simpl.
    + rewrite !elem_of_cons. naive_solver.
    + rewrite !elem_of_cons, IH. naive_solver.
Qed.

Lemma wf_set d k v : PyDict.wf d -> PyDict.wf (PyDict.set d k v).
Proof.
  unfold PyDict.wf. induction d as [|[k0 v0] d IH]; simpl.
  - intros _. apply NoDup_singleton.
  - rewrite NoDup_cons. intros [Hnotin Hnd].
    destruct (decide (k0 = k)) as [->|Hne]; simpl; rewrite NoDup_cons.
    + done.
    + split; [|by apply IH]. rewrite (keys_set d k v k0). naive_solver.
Qed.

Lemma wf_pop d k : PyDict.wf d -> PyDict.wf (PyDict.pop d k).
Proof.
  unfold PyDict.wf, PyDict.keys, PyDict.pop. induction d as [|[k0 v0] d IH].
  - done.
  - simpl. rewrite NoDup_cons. intros [Hnotin Hnd].
    rewrite filter_cons. simpl. destruct (decide (k0 <> k)); [|by apply IH].
    simpl. rewrite NoDup_cons. split; [|by apply IH].
    intros Hin. apply Hnotin. by apply (keys_pop d k k0) in Hin as [_ ?].
Qed.

Lemma Forall_set (P : K * V -> Prop) d k v :
  Forall P d -> P (k, v) -> Forall P (PyDict.set d k v).
Proof.
  intros Hd Hkv. induction Hd as [|[k' v'] d Hx Hd IH]; simpl.
  - by constructor.
  - destruct (decide (k' = k)); by constructor.
Qed.

Lemma Forall_pop (P : K * V -> Prop) d k :
  Forall P d -> Forall P (PyDict.pop d k).
Proof.
  rewrite !Forall_forall. intros Hd x Hx.
  apply list_elem_of_filter in Hx as [_ Hx]. by apply Hd.
Qed.

End dict_facts.

(** ** Slices *)

Section slice_facts.
Context {A : Type}.
Implicit Types (l : list A).

(** A window from the start that is at least as long as the list returns
    the list. *)
Lemma py_slice_all l limit :
  Z.of_nat (length l) <= limit -> py_slice (Some 0) (Some (0 + limit)) l = l.
Proof.
  intros Hlen. unfold py_slice, slice_index.
  change (0 <? 0) with false. cbv iota.
  destruct (Z.ltb_spec (0 + limit) 0); [lia|].
  rewrite (Z.min_l 0), (Z.min_r (0 + limit)) by lia. simpl drop.
  apply firstn_all2. lia.
Qed.

Lemma py_slice_from_0 l : py_slice (Some 0) None l = l.
Proof.
  unfold py_slice, slice_index. change (0 <? 0) with false. cbv iota.
  rewrite Z.min_l by lia. simpl drop. apply firstn_all2. lia.
Qed.

Lemma py_slice_tail l (n : nat) :
  (0 < n)%nat -> py_slice (Some (- Z.of_nat n)) None l = drop (length l - n) l.
Proof.
  intros Hn. unfold py_slice, slice_index.
  destruct (Z.ltb_spec (- Z.of_nat n) 0); [|lia].
  replace (Z.to_nat (Z.max (- Z.of_nat n + Z.of_nat (length l)) 0))
    with (length l - n)%nat by lia.
  apply firstn_all2. rewrite length_drop. lia.
Qed.

Lemma py_slice_subseteq l lo hi : py_slice lo hi l ⊆ l.
Proof.
  unfold py_slice. etrans; [apply subseteq_take|apply subseteq_drop].
Qed.

Lemma py_slice_length l limit :
  0 <= limit -> Z.of_nat (length (py_slice (Some 0) (Some (0 + limit)) l)) <= limit.
Proof.
  intros Hlim. unfold py_slice, slice_index.
  change (0 <? 0) with false. cbv iota.
  destruct (Z.ltb_spec (0 + limit) 0); [lia|].
  rewrite length_take. lia.
Qed.

End slice_facts.

(** ** InMemoryStore *)

Section store_facts.
Import InMemoryStore.
Implicit Types (self : t) (ns : namespace) (key : string) (value : record).

Lemma run_app self ops1 ops2 : run self (ops1 ++ ops2) = run (run self ops1) ops2.
Proof. apply foldl_app. Qed.

(** The set of namespaces only grows. *)
Lemma namespaces_step self o : _namespaces self ⊆ _namespaces (step self o).
Proof. destruct o; simpl; set_solver. Qed.

Lemma namespaces_run self ops : _namespaces self ⊆ _namespaces (run self ops).
Proof.
  revert self. induction ops as [|o ops IH]; intros self; [done|].
  simpl. etrans; [apply (namespaces_step self o)|apply IH].
Qed.

Lemma expiry_owned_step self o : expiry_owned self -> expiry_owned (step self o).
Proof.
  intros Hown. destruct o as [now ns key value index ttl|ns key| | |]; try done.
  - intros k. simpl. destruct (decide (_make_key ns key = k)) as [<-|Hne].
    + intros _. rewrite get_set_eq. by eexists.
    + rewrite (get_set_ne _ _ _ _ Hne). intros Hk. apply Hown.
      destruct ttl; [by rewrite (get_set_ne _ _ _ _ Hne) in Hk|done].
  - intros k. simpl. destruct (decide (_make_key ns key = k)) as [<-|Hne].
    + rewrite get_pop_eq. by intros [? ?].
    + rewrite !(get_pop_ne _ _ _ Hne). apply Hown.
Qed.

Lemma expiry_owned_reachable self : reachable self -> expiry_owned self.
Proof.
  intros (index & ops & ->).
  assert (expiry_owned (init index)) as Hinit by (by intros k [? ?]).
  revert Hinit. generalize (init index).
  induction ops as [|o ops IH]; intros s Hs; [done|].
  simpl. by apply IH, expiry_owned_step.
Qed.

(** The two dicts of a store built from [init] have no repeated key. *)
Lemma wf_reachable self :
  reachable self -> PyDict.wf (_data self) /\ PyDict.wf (_ttl_data self).
Proof.
  intros (index & ops & ->).
  assert (PyDict.wf (_data (init index)) /\ PyDict.wf (_ttl_data (init index)))
    as Hinit by (split; apply NoDup_nil_2).
  revert Hinit. generalize (init index).
  induction ops as [|o ops IH]; intros s [Hd Hx]; [done|].
  simpl. apply IH.
  destruct o as [now ns key value index' ttl|ns key| | |]; try done; simpl.
  - split; [by apply wf_set|]. destruct ttl; [by apply wf_set|done].
  - split; by apply wf_pop.
Qed.

(** C4: right after [put(ns, key, value)], [get(ns, key)] is [value]. *)
Theorem get_after_put now self ns key value index ttl refresh_ttl :
  get (put now self ns key value index ttl) ns key refresh_ttl = Some value.
Proof. unfold get, put. simpl. apply get_set_eq. Qed.

(** C8: a [put] with a ttl stores [now + ttl * 60] under the composite key;
    a [put] without one returns the expiry table it was given, so the entry
    an earlier [put] of the same key stored is still there. *)
Theorem put_expiry now self ns key value index :
  (forall ttl,
     PyDict.get (_ttl_data (put now self ns key value index (Some ttl)))
       (_make_key ns key) = Some (now + ttl * 60)%float) /\
  _ttl_data (put now self ns key value index None) = _ttl_data self /\
  (forall ttl now' value' index',
     PyDict.get
       (_ttl_data (put now' (put now self ns key value index (Some ttl))
                     ns key value' index' None))
       (_make_key ns key) = Some (now + ttl * 60)%float).
Proof.
  split; [|split].
  - intros ttl. simpl. apply get_set_eq.
  - done.
  - intros ttl now' value' index'. simpl. apply get_set_eq.
Qed.

(** C6: after [delete(ns, key)] the record and its expiry entry are gone and
    a second [delete] changes nothing; on a store built from [init], a
    [delete] of a key that [get] does not find returns the same state. *)
Theorem delete_removes self ns key refresh_ttl :
  get (delete self ns key) ns key refresh_ttl = None /\
  PyDict.get (_ttl_data (delete self ns key)) (_make_key ns key) = None /\
  delete (delete self ns key) ns key = delete self ns key /\
  (reachable self -> get self ns key refresh_ttl = None ->
   delete self ns key = self).
Proof.
  repeat split.
  - apply get_pop_eq.
  - apply get_pop_eq.
  - unfold delete. simpl. by rewrite !pop_pop.
  - intros Hreach Hget. unfold get in Hget. simpl in Hget.
    pose proof (expiry_owned_reachable self Hreach (_make_key ns key)) as Hown.
    destruct self as [d n x i]. unfold delete. simpl in *.
    rewrite (pop_absent d) by done. rewrite (pop_absent x); [done|].
    destruct (PyDict.get x _) eqn:E; [|done].
    destruct Hown as [? Hown]; [by eexists|congruence].
Qed.

Lemma delete_removes_witness :
  let self := run (init None)
                [Put 0 ["test"; "namespace"] "key1" [("data", PyStr "value1")]
                   None (Some 5%float)] in
  delete self ["test"; "namespace"] "nonexistent" = self.
Proof.
  intros self.
  apply (delete_removes self ["test"; "namespace"] "nonexistent" None).
  - eexists None, _. reflexivity.
  - reflexivity.
Defined.

Lemma list_namespaces_unfiltered self limit :
  Z.of_nat (size (_namespaces self)) <= limit ->
  list_namespaces self None None None limit 0 = elements (_namespaces self).
Proof. intros Hlim. unfold list_namespaces. by apply py_slice_all. Qed.

(** C5, as stated, fails for the call with the default window: of the one
    hundred and one namespaces that were passed to [put], [list_namespaces()]
    returns at most one hundred. *)
Lemma list_namespaces_window_drops :
  ~ (forall ns, ns ∈ many_namespaces ->
       ns ∈ list_namespaces crowded None None None list_namespaces_limit 0).
Proof.
  intros Hall.
  assert (NoDup many_namespaces) as Hnd.
  { apply NoDup_fmap_2, NoDup_seq. intros i j [= Heq]. by apply (inj pretty). }
  pose proof (submseteq_length _ _ (NoDup_submseteq _ _ Hnd Hall)) as Hlen.
  pose proof (py_slice_length (elements (_namespaces crowded)) 100) as Hcap.
  unfold list_namespaces, list_namespaces_limit in Hlen.
  change (length many_namespaces) with 101%nat in Hlen. lia.
Qed.

(** C5, amended: a namespace passed to [put] stays in the namespace set
    through every later sequence of calls, deletions included, and
    [list_namespaces] without filters returns it whenever the window starts
    at 0 and its limit is at least the number of known namespaces. *)
Theorem namespace_persists now self ns key value index ttl ops :
  let self' := run (put now self ns key value index ttl) ops in
  ns ∈ _namespaces self' /\
  forall limit,
    Z.of_nat (size (_namespaces self')) <= limit ->
    ns ∈ list_namespaces self' None None None limit 0.
Proof.
  intros self'.
  assert (ns ∈ _namespaces self') as Hin.
  { apply (namespaces_run (put now self ns key value index ttl) ops).
    simpl. set_solver. }
  split; [done|]. intros limit Hlim.
  rewrite list_namespaces_unfiltered by done. by apply elem_of_elements.
Qed.

Lemma namespace_persists_witness :
  ["ns1"] ∈ list_namespaces
              (run (put 0 (init None) ["ns1"] "key1" [] None None)
                 [Delete ["ns1"] "key1"])
              None None None list_namespaces_limit 0.
Proof.
  apply (namespace_persists 0 (init None) ["ns1"] "key1" [] None None
           [Delete ["ns1"] "key1"]).
  vm_compute. discriminate.
Defined.

(** The two containment tests of [list_namespaces]. *)
Lemma has_prefix_empty ns : has_prefix [] ns = true.
Proof. unfold has_prefix. by rewrite bool_decide_eq_true_2. Qed.

Lemma has_suffix_empty ns : has_suffix [] ns = bool_decide (ns = []).
Proof.
  unfold has_suffix. change (- Z.of_nat (length [])) with 0.
  apply bool_decide_ext. by rewrite py_slice_from_0.
Qed.

Lemma has_suffix_nonempty (s : namespace) ns :
  s <> [] ->
  has_suffix s ns = bool_decide (drop (length ns - length s) ns = s).
Proof.
  intros Hs. unfold has_suffix. apply bool_decide_ext.
  rewrite py_slice_tail; [done|]. destruct s; [done|simpl; lia].
Qed.

(** With a non-empty suffix and a window over the whole set, the namespaces
    returned are the known ones whose trailing segments are the suffix. *)
Lemma list_namespaces_suffix self (s : namespace) ns limit :
  s <> [] -> Z.of_nat (size (_namespaces self)) <= limit ->
  ns ∈ list_namespaces self None (Some s) None limit 0 <->
  ns ∈ _namespaces self /\
  drop (length ns - Nat.min (length s) (length ns)) ns = s.
Proof.
  intros Hs Hlim. unfold list_namespaces.
  rewrite py_slice_all.
  - rewrite list_elem_of_In, filter_In, <- list_elem_of_In, elem_of_elements.
    rewrite has_suffix_nonempty, bool_decide_eq_true by done.
    destruct (Nat.min_spec (length s) (length ns)) as [[Hlt ->]|[Hge ->]]; [done|].
    replace (length ns - length s)%nat with 0%nat by lia.
    by rewrite Nat.sub_diag.
  - etrans; [|apply Hlim]. apply Nat2Z.inj_le, List.filter_length_le.
Qed.

(** C3 at the empty suffix: the store knows [("a",)]; [list_namespaces()]
    and [list_namespaces(prefix=())] return it, [list_namespaces(suffix=())]
    returns nothing, although the trailing zero segments of [("a",)] are the
    empty tuple. *)
Theorem list_namespaces_empty_suffix :
  let self := put 0 (init None) ["a"] "k" [] None None in
  list_namespaces self None None None list_namespaces_limit 0 = [["a"]] /\
  list_namespaces self (Some []) None None list_namespaces_limit 0 = [["a"]] /\
  list_namespaces self None (Some []) None list_namespaces_limit 0 = [] /\
  drop (length ["a"] - Nat.min (length (@nil string)) (length ["a"])) ["a"] = [].
Proof. vm_compute. done. Qed.

(** An empty suffix keeps the empty namespace only, whatever the store. *)
Lemma list_namespaces_suffix_empty self prefix max_depth limit offset ns :
  ns ∈ list_namespaces self prefix (Some []) max_depth limit offset -> ns = [].
Proof.
  unfold list_namespaces. intros Hin%py_slice_subseteq.
  assert (ns ∈ List.filter (has_suffix [])
            (match prefix with
             | Some p => List.filter (has_prefix p) (elements (_namespaces self))
             | None => elements (_namespaces self)
             end)) as Hin'.
  { destruct max_depth; [|done].
    by apply list_elem_of_In, filter_In in Hin as [?%list_elem_of_In _]. }
  apply list_elem_of_In, filter_In in Hin' as [_ Hsuf].
  rewrite has_suffix_empty in Hsuf. by apply bool_decide_eq_true in Hsuf.
Qed.

End store_facts.

(** ** Search *)

Section search_facts.
Context {R : PyRuntime}.
Import InMemoryStore.
Implicit Types (self : t) (ns p : namespace) (key : string) (r : record).

Lemma py_slice_nil {A} lo hi : @py_slice A lo hi [] = [].
Proof. unfold py_slice. by rewrite drop_nil, take_nil. Qed.

Lemma append_empty_r (s : string) : s +:+ "" = s.
Proof. induction s; simpl; congruence. Qed.

Lemma prefix_empty (s : string) : String.prefix "" s = true.
Proof. by destruct s. Qed.

(** A composite key begins with the delimiter exactly when its namespace is
    not an ordinary one. *)
Lemma startswith_delimiter ns key :
  startswith (_make_key ns key) ":" = negb (ordinary ns).
Proof.
  unfold startswith. rewrite make_key_terminated.
  destruct ns as [|[|c s] ns].
  - by destruct key.
  - change (String.prefix ":" (String ":" (terminated ns +:+ key)) = true).
    by rewrite prefix_String, prefix_empty.
  - change (String.prefix ":"
              (String c ((s +:+ ":" +:+ terminated ns) +:+ key))
            = negb (negb (String.prefix ":" (String c s)) && negb false)).
    rewrite andb_true_r, negb_involutive.
    by rewrite !prefix_String, !prefix_empty.
Qed.

Lemma no_delimiter_keys index ops :
  forallb op_ordinary ops = true ->
  Forall (fun item => startswith item.1 ":" = false)
    (_data (run (init index) ops)).
Proof.
  assert (Forall (fun item : string * record => startswith item.1 ":" = false)
            (_data (init index))) as Hinit by constructor.
  revert Hinit. generalize (init index).
  induction ops as [|o ops IH]; intros self Hself Hops; [done|].
  simpl in Hops. apply andb_true_iff in Hops as [Ho Hops].
  simpl. apply IH; [|done].
  destruct o as [now ns key value index' ttl|ns key| | |]; try done; simpl.
  - apply Forall_set; [done|]. simpl in *.
    by rewrite startswith_delimiter, Ho.
  - by apply Forall_pop.
Qed.

Lemma search_unfold self p query filter limit offset refresh_ttl :
  search self p query filter limit offset refresh_ttl
  = py_slice (Some offset) (Some (offset + limit))
      (PyDict.values
         (List.filter (selected (_make_key p "") filter) (_data self))).
Proof. done. Qed.

(** A key that begins with the delimiter is a key of the empty namespace. *)
Lemma startswith_delimiter_empty (ns_key : string) :
  startswith ns_key ":" = true -> exists leaf, ns_key = _make_key [] leaf.
Proof.
  unfold startswith. destruct ns_key as [|c rest]; [done|].
  rewrite prefix_String, prefix_empty, andb_true_r.
  intros <-%bool_decide_eq_true. by exists rest.
Qed.

(** C10: for the empty prefix the encoded prefix is the delimiter alone;
    every record [search] then returns is stored under a composite key that
    begins with the delimiter, which is a key of the empty namespace; a
    composite key begins with the delimiter only when the namespace is
    empty or its first segment is empty or itself begins with the
    delimiter; and on a store that was only given records under ordinary
    namespaces [search] returns nothing, whatever it holds. *)
Theorem search_empty_prefix self query filter limit offset refresh_ttl :
  _make_key [] "" = ":" /\
  (forall r,
     r ∈ search self [] query filter limit offset refresh_ttl ->
     exists ns_key,
       (ns_key, r) ∈ _data self /\ startswith ns_key ":" = true /\
       exists leaf, ns_key = _make_key [] leaf) /\
  (forall ns key, startswith (_make_key ns key) ":" = negb (ordinary ns)) /\
  (forall index ops,
     forallb op_ordinary ops = true ->
     search (run (init index) ops) [] query filter limit offset refresh_ttl
     = []).
Proof.
  split; [done|]. split; [|split].
  - intros r Hr. rewrite search_unfold in Hr.
    apply py_slice_subseteq in Hr. unfold PyDict.values in Hr.
    apply list_elem_of_fmap in Hr as ([k r'] & -> & Hin).
    apply list_elem_of_In, filter_In in Hin as [Hin Hsel].
    exists k. split; [by apply list_elem_of_In|].
    unfold selected in Hsel. apply andb_true_iff in Hsel as [Hk _].
    split; [done|]. by apply startswith_delimiter_empty.
  - apply startswith_delimiter.
  - intros index ops Hops. rewrite search_unfold.
    pose proof (no_delimiter_keys index ops Hops) as Hkeys.
    induction Hkeys as [|item d Hitem Hd IH]; [apply py_slice_nil|].
    simpl. unfold selected at 1.
    change (_make_key [] "") with ":". by rewrite Hitem.
Qed.

(** *** The store against the table of the specification *)

Lemma matches_filter_spec r f :
  _matches_filter r f = StoreSpec.matches r (Some f).
Proof.
  induction f as [|[field expected] f IH]; [done|].
  simpl in *. destruct (PyDict.get r field) as [v|]; [|done].
  rewrite <- IH. by destruct (py_ne v expected).
Qed.

Lemma prefix_terminated p (l : namespace) key :
  forallb colon_free p = true -> forallb colon_free l = true ->
  colon_free key = true ->
  String.prefix (terminated p) (terminated l +:+ key)
  = bool_decide (take (length p) l = p).
Proof.
  revert l. induction p as [|s p IH]; intros l Hp Hl Hkey.
  - by rewrite prefix_empty.
  - simpl in Hp. apply andb_true_iff in Hp as [Hs Hp].
    change (terminated (s :: p)) with (s +:+ ":" +:+ terminated p).
    destruct l as [|t l].
    + change (terminated [] +:+ key) with key.
      by rewrite prefix_segment_key.
    + simpl in Hl. apply andb_true_iff in Hl as [Ht Hl].
      change (terminated (t :: l)) with (t +:+ ":" +:+ terminated l).
      rewrite !append_assoc, prefix_segment, IH by done.
      simpl. case_bool_decide as Hst.
      * subst t. simpl. apply bool_decide_ext. split; [by intros ->|].
        by intros [= ->].
      * symmetry. apply bool_decide_eq_false_2. intros [= ? _]. congruence.
Qed.

(** On well-formed keys and a well-formed non-empty prefix, the test on the
    composite key is the test on the namespace. *)
Lemma startswith_has_prefix ns key p :
  StoreSpec.key_ok (ns, key) = true -> namespace_ok p = true -> p <> [] ->
  startswith (_make_key ns key) (_make_key p "") = has_prefix p ns.
Proof.
  intros [Hns Hkey]%andb_true_iff Hp Hne. simpl in Hns, Hkey.
  unfold startswith, has_prefix. rewrite !make_key_terminated, append_empty_r.
  destruct p as [|s p]; [done|]. simpl padded.
  rewrite prefix_terminated;
    auto using namespace_ok_padded, namespace_ok_colon_free.
  destruct ns as [|t ns]; [|done].
  simpl in Hp. apply andb_true_iff in Hp as [Hs _].
  rewrite !bool_decide_eq_false_2; [done|by destruct p|].
  destruct p; simpl; intros [= <-]; done.
Qed.

Lemma composite_set (m : StoreSpec.t) ns key value :
  Forall (fun e => StoreSpec.key_ok e.1 = true) m ->
  StoreSpec.key_ok (ns, key) = true ->
  StoreSpec.composite <$> PyDict.set m (ns, key) value
  = PyDict.set (StoreSpec.composite <$> m) (_make_key ns key) value.
Proof.
  intros Hm Hk. induction Hm as [|[[ns' key'] r'] m He Hm IH]; [done|].
  simpl in *. destruct (decide ((ns', key') = (ns, key))) as [[= -> ->]|Hne].
  - by rewrite decide_True.
  - rewrite decide_False; [rewrite fmap_cons; f_equal; exact IH|].
    intros Heq. apply Hne.
    apply andb_true_iff in He as [? ?]. apply andb_true_iff in Hk as [? ?].
    by apply make_key_ok_inj in Heq as [-> ->].
Qed.

Lemma composite_pop (m : StoreSpec.t) ns key :
  Forall (fun e => StoreSpec.key_ok e.1 = true) m ->
  StoreSpec.key_ok (ns, key) = true ->
  StoreSpec.composite <$> PyDict.pop m (ns, key)
  = PyDict.pop (StoreSpec.composite <$> m) (_make_key ns key).
Proof.
  intros Hm Hk. unfold PyDict.pop.
  induction Hm as [|[[ns' key'] r'] m He Hm IH]; [done|].
  rewrite fmap_cons, !filter_cons. simpl in *.
  destruct (decide ((ns', key') <> (ns, key))) as [Hne|Heq].
  - rewrite decide_True; [by rewrite fmap_cons, IH|].
    intros Heq. apply Hne.
    apply andb_true_iff in He as [? ?]. apply andb_true_iff in Hk as [? ?].
    by apply make_key_ok_inj in Heq as [-> ->].
  - apply dec_stable in Heq as [= -> ->]. by rewrite decide_False by naive_solver.
Qed.

(** Along a trace of well-formed calls the store holds the composite-key
    image of the table, entry for entry and in the same order. *)
Lemma run_refines ops : forall self (m : StoreSpec.t),
  _data self = StoreSpec.composite <$> m ->
  Forall (fun e => StoreSpec.key_ok e.1 = true) m ->
  forallb StoreSpec.op_ok ops = true ->
  _data (run self ops) = StoreSpec.composite <$> StoreSpec.run m ops /\
  Forall (fun e => StoreSpec.key_ok e.1 = true) (StoreSpec.run m ops).
Proof.
  induction ops as [|o ops IH]; intros self m Hdata Hm Hops; [done|].
  simpl in Hops. apply andb_true_iff in Hops as [Ho Hops].
  simpl. apply IH; [| |done].
  - destruct o as [now ns key value index ttl|ns key| | |]; try done; simpl.
    + rewrite Hdata. symmetry. by apply composite_set.
    + rewrite Hdata. symmetry. by apply composite_pop.
  - destruct o as [now ns key value index ttl|ns key| | |]; try done; simpl.
    + by apply Forall_set.
    + by apply Forall_pop.
Qed.

Lemma search_composite (m : StoreSpec.t) p filter :
  Forall (fun e => StoreSpec.key_ok e.1 = true) m ->
  namespace_ok p = true -> p <> [] ->
  PyDict.values
    (List.filter (selected (_make_key p "") filter) (StoreSpec.composite <$> m))
  = StoreSpec.search m p filter.
Proof.
  intros Hm Hp Hne. unfold StoreSpec.search, PyDict.values.
  induction Hm as [|[[ns key] r] m He Hm IH]; [done|].
  rewrite fmap_cons. simpl List.filter.
  assert (selected (_make_key p "") filter (StoreSpec.composite (ns, key, r))
          = has_prefix p ns && StoreSpec.matches r filter) as ->.
  { unfold selected. simpl. rewrite startswith_has_prefix by done.
    destruct filter; [by rewrite matches_filter_spec|done]. }
  change (has_prefix p (ns, key, r).1.1 && StoreSpec.matches (ns, key, r).2 filter)
    with (has_prefix p ns && StoreSpec.matches r filter).
  destruct (has_prefix p ns && StoreSpec.matches r filter); [|exact IH].
  rewrite !fmap_cons. f_equal. exact IH.
Qed.

(** C7, as stated, fails in three ways.  A delimiter inside a segment:
    the record stored at [("a:b",)] is returned for the prefix [("a",)].
    The empty prefix: the record stored at [("a",)] is not returned.  The
    default window: of eleven records under [("a",)] ten are returned. *)
Lemma search_not_exact :
  let r : record := [("type", PyStr "x")] in
  let search' self p :=
    @search example_runtime self p None None search_limit 0 None in
  let table ops p :=
    @StoreSpec.search example_runtime (StoreSpec.run [] ops) p None in
  let one := [Put 0 ["a:b"] "c" r None None] in
  let two := [Put 0 ["a"] "k" r None None] in
  let three :=
    (fun i : nat => Put 0 ["a"] (pretty i) r None None) <$> seq 0 11 in
  (search' (run (init None) one) ["a"] = [r] /\ table one ["a"] = []) /\
  (search' (run (init None) two) [] = [] /\ table two [] = [r]) /\
  (length (search' (run (init None) three) ["a"]) = 10%nat /\
   length (table three ["a"]) = 11%nat).
Proof. vm_compute. done. Qed.

(** C7, amended: on a store built by calls whose namespaces have non-empty,
    delimiter-free segments and whose leaf keys are delimiter-free, and for
    a non-empty prefix of such segments, [search] returns the window
    [offset, offset + limit) of the records stored at a namespace that
    starts with the prefix and that have every (field, expected) pair of
    the filter, in the order of the table; all of them when the window
    starts at 0 and is long enough.  A filter that is [None] or empty
    matches every record. *)
Theorem search_refines index ops p query filter limit offset refresh_ttl :
  forallb StoreSpec.op_ok ops = true ->
  namespace_ok p = true -> p <> [] ->
  let found := StoreSpec.search (StoreSpec.run [] ops) p filter in
  search (run (init index) ops) p query filter limit offset refresh_ttl
  = py_slice (Some offset) (Some (offset + limit)) found /\
  (Z.of_nat (length found) <= limit ->
   search (run (init index) ops) p query filter limit 0 refresh_ttl = found) /\
  (forall r, StoreSpec.matches r None = true /\
             StoreSpec.matches r (Some []) = true).
Proof.
  intros Hops Hp Hne found.
  destruct (run_refines ops (init index) []) as [Hdata Hm]; [done..|].
  assert (forall offset',
            search (run (init index) ops) p query filter limit offset'
              refresh_ttl
            = py_slice (Some offset') (Some (offset' + limit)) found) as Hs.
  { intros offset'. rewrite search_unfold, Hdata.
    by rewrite search_composite. }
  split; [apply Hs|]. split; [|done].
  intros Hlen. rewrite Hs. by apply py_slice_all.
Qed.

End search_facts.

Lemma search_empty_prefix_witness :
  @InMemoryStore.search example_runtime
    (InMemoryStore.run (InMemoryStore.init None)
       [InMemoryStore.Put 0 ["a"] "k" [("x", PyInt 1)] None None])
    [] None None InMemoryStore.search_limit 0 None = [].
Proof.
  apply (search_empty_prefix (R := example_runtime) (InMemoryStore.init None)
           None None InMemoryStore.search_limit 0 None).
  reflexivity.
Defined.

(** The scenario of the specification: two profiles under [("user", _)]. *)
Lemma search_refines_witness :
  let ops := [InMemoryStore.Put 0 ["user"; "1"] "profile"
                [("name", PyStr "Ann")] None None;
              InMemoryStore.Put 0 ["user"; "2"] "profile"
                [("name", PyStr "Bo")] None None] in
  @InMemoryStore.search example_runtime
    (InMemoryStore.run (InMemoryStore.init None) ops)
    ["user"] None (Some [("name", PyStr "Ann")])
    InMemoryStore.search_limit 0 None
  = [[("name", PyStr "Ann")]].
Proof.
  intros ops.
  apply (search_refines (R := example_runtime) None ops ["user"] None
           (Some [("name", PyStr "Ann")]) InMemoryStore.search_limit 0 None).
  - reflexivity.
  - reflexivity.
  - discriminate.
  - vm_compute. discriminate.
Defined.

(** ** MemorySaver *)

Section saver_facts.
Context {R : PyRuntime}.
Import MemorySaver.
Implicit Types (self : t) (thread_id : string) (checkpoint : record).

(** C9: [put(t, c)] makes [c] the checkpoint of [t], whatever was stored,
    with the metadata [timestamp = now], the clock value the call reads,
    hence no earlier than any reading [t_call] the clock gave before, and
    [size = len(str(c))]; after [delete(t)], [get(t)] and [get_metadata(t)]
    find nothing and [list_threads()] does not list [t]. *)
Theorem checkpoint_put_delete self thread_id checkpoint (t_call now : float) :
  (t_call <=? now)%float = true ->
  let self' := put now self thread_id checkpoint in
  get self' thread_id = Some checkpoint /\
  (exists md,
     get_metadata self' thread_id = Some md /\
     timestamp md = now /\
     (t_call <=? timestamp md)%float = true /\
     size md = Z.of_nat (String.length (py_str (PyDict checkpoint)))) /\
  get (delete self' thread_id) thread_id = None /\
  get_metadata (delete self' thread_id) thread_id = None /\
  thread_id ∉ list_threads (delete self' thread_id).
Proof.
  intros Hclock self'. split; [apply get_set_eq|]. split.
  - eexists. split; [apply get_set_eq|]. by simpl.
  - split; [apply get_pop_eq|]. split; [apply get_pop_eq|].
    unfold list_threads, delete. simpl. rewrite keys_pop. naive_solver.
Qed.

End saver_facts.

Lemma checkpoint_put_delete_witness :
  let self' :=
    @MemorySaver.put example_runtime 100.5 MemorySaver.init "threadA"
      [("step", PyInt 1)] in
  MemorySaver.get_metadata self' "threadA"
  = Some {| MemorySaver.timestamp := 100.5; MemorySaver.size := 11 |} /\
  "threadA" ∉ MemorySaver.list_threads (MemorySaver.delete self' "threadA").
Proof.
  intros self'.
  destruct (checkpoint_put_delete (R := example_runtime) MemorySaver.init
              "threadA" [("step", PyInt 1)] 100 100.5 eq_refl)
    as (_ & _ & _ & _ & Hlist).
  split; [reflexivity|exact Hlist].
Defined.

(** ** DiskBackedInMemStore *)

Section disk_facts.
Import InMemoryStore DiskBackedInMemStore.

Lemma loaded_records (kvs : list (string * json)) :
  Forall (fun kv => exists o, kv.2 = JObj o) kvs ->
  is_Some (as_dict as_record (json_load (JObj kvs))).
Proof.
  intros Hkvs. simpl. apply mapM_is_Some.
  assert (Forall (fun kv : string * pyval =>
                    is_Some (pair kv.1 <$> as_record kv.2))
            (@nil (string * pyval))) as Hacc by constructor.
  revert Hacc. generalize (@nil (string * pyval)).
  induction Hkvs as [|[k j] kvs [o Ho] Hkvs IH]; intros acc Hacc; [done|].
  simpl in Ho. subst j. simpl. apply IH. apply Forall_set; [done|]. by eexists.
Qed.

(** A store that knows a namespace writes a file from which a new store
    cannot be built: the namespaces come back as lists, and [set] raises. *)
Lemma reload_raises self disk path index :
  persist_path self = Some path -> path <> "" ->
  _namespaces (base self) <> ∅ ->
  init (Some path) index (_save_to_disk self disk) = Raise TypeError.
Proof.
  intros Hpath Hne Hns. unfold init, _save_to_disk, _load_from_disk.
  rewrite Hpath. simpl persist_path.
  assert (truthy (Some path) = true) as ->.
  { simpl. by rewrite (proj2 (String.eqb_neq path "")). }
  rewrite lookup_insert_eq.
  change (json_load (json_dump (snapshot self)))
    with (PyDict
            [("data", json_load (json_dump (PyDict
                (List.map (fun kv => (kv.1, PyDict kv.2)) (_data (base self))))));
             ("namespaces", json_load (json_dump (PyList
                (List.map (fun ns => PyTuple (List.map PyStr ns))
                   (elements (_namespaces (base self)))))));
             ("ttl_data", json_load (json_dump (PyDict
                (List.map (fun kv => (kv.1, PyFloat kv.2))
                   (_ttl_data (base self))))))]).
  cbv beta iota.
  change (member _ "data" _) with (json_load (json_dump (PyDict
            (List.map (fun kv => (kv.1, PyDict kv.2)) (_data (base self)))))).
  change (member _ "namespaces" _) with (json_load (json_dump (PyList
            (List.map (fun ns => PyTuple (List.map PyStr ns))
               (elements (_namespaces (base self))))))).
  destruct (loaded_records
              (List.map (fun kv => (kv.1, json_dump kv.2))
                 (List.map (fun kv => (kv.1, PyDict kv.2))
                    (_data (base self))))) as [d Hd].
  { apply Forall_forall. intros kv Hkv.
    apply list_elem_of_In, in_map_iff in Hkv as (kv' & <- & Hkv').
    apply in_map_iff in Hkv' as (kv'' & <- & _). by eexists. }
  change (json_load (json_dump (PyDict ?l)))
    with (json_load (JObj (List.map (fun kv => (kv.1, json_dump kv.2)) l))).
  rewrite Hd. simpl of_typed.
  destruct (elements (_namespaces (base self))) as [|ns nss] eqn:Hel.
  { by apply elements_empty_inv, leibniz_equiv in Hel. }
  reflexivity.
Qed.

(** The same after any [put] through a store with a persistence path. *)
Lemma reload_after_put now self disk path ns key value index ttl index' :
  persist_path self = Some path -> path <> "" ->
  init (Some path) index'
    (DiskBackedInMemStore.put now self disk ns key value index ttl).2
  = Raise TypeError.
Proof.
  intros Hpath Hne. unfold DiskBackedInMemStore.put. simpl.
  apply reload_raises; [done..|]. simpl. set_solver.
Qed.

(** C2 at a store with one record: after
    [DiskBackedInMemStore("store.json").put(("a",), "k", {"x": 1})] the file
    holds the namespace as the array [["a"]], and
    [DiskBackedInMemStore("store.json")] raises [TypeError] instead of
    returning a store. *)
Theorem reload_after_put_raises :
  let fresh := {| base := InMemoryStore.init None;
                  persist_path := Some "store.json" |} in
  let written :=
    DiskBackedInMemStore.put 0 fresh ∅ ["a"] "k" [("x", PyInt 1)] None None in
  DiskBackedInMemStore.init (Some "store.json") None ∅ = Ok fresh /\
  written.2 !! "store.json"
  = Some (Document
            (JObj [("data", JObj [("a:k", JObj [("x", JInt 1)])]);
                   ("namespaces", JArr [JArr [JStr "a"]]);
                   ("ttl_data", JObj [])])) /\
  InMemoryStore.get (base written.1) ["a"] "k" None = Some [("x", PyInt 1)] /\
  DiskBackedInMemStore.init (Some "store.json") None written.2
  = Raise TypeError.
Proof. vm_compute. done. Qed.

End disk_facts.

(** ** Scenarios of the test suite and of the specification *)

Section scenarios.
Import InMemoryStore.
Local Existing Instance example_runtime.

Example make_key_user : _make_key ["user"; "123"] "key1" = "user:123:key1".
Proof. reflexivity. Qed.

Example make_key_no_namespace : _make_key [] "key1" = ":key1".
Proof. reflexivity. Qed.

Example slice_window : py_slice (Some 1) (Some (1 + 2)) [10; 20; 30; 40] = [20; 30].
Proof. reflexivity. Qed.

Example slice_tail : py_slice (Some (- 2)) None [10; 20; 30] = [20; 30].
Proof. reflexivity. Qed.

Example slice_tail_short : py_slice (Some (- 5)) None [10; 20; 30] = [10; 20; 30].
Proof. reflexivity. Qed.

Example str_of_checkpoint :
  py_str (PyDict [("step", PyInt 1)]) = "{'step': 1}".
Proof. reflexivity. Qed.

(** [test_put_overwrite] *)
Example put_overwrite :
  let s := put 0 (init None) ["test"; "namespace"] "key1"
             [("data", PyStr "old_value")] None None in
  let s := put 0 s ["test"; "namespace"] "key1"
             [("data", PyStr "new_value")] None None in
  get s ["test"; "namespace"] "key1" None = Some [("data", PyStr "new_value")]
  /\ length (_data s) = 1%nat.
Proof. by vm_compute. Qed.

(** [test_search] *)
Example search_by_field :
  let ns := ["test"; "namespace"] in
  let s := put 0 (init None) ns "key1"
             [("data", PyStr "value1"); ("type", PyStr "test")] None None in
  let s := put 0 s ns "key2"
             [("data", PyStr "value2"); ("type", PyStr "test")] None None in
  length (search s ns None (Some [("type", PyStr "test")]) search_limit 0 None)
  = 2%nat /\
  search s ns None (Some [("data", PyStr "value1")]) search_limit 0 None
  = [[("data", PyStr "value1"); ("type", PyStr "test")]].
Proof. by vm_compute. Qed.

(** The two profiles of the specification: both namespaces are listed under
    the prefix [("user",)]. *)
Example list_user_namespaces :
  let s := put 0 (init None) ["user"; "1"] "profile"
             [("name", PyStr "Ann")] None None in
  let s := put 0 s ["user"; "2"] "profile" [("name", PyStr "Bo")] None None in
  list_namespaces s (Some ["user"]) None None list_namespaces_limit 0
  ≡ₚ [["user"; "1"]; ["user"; "2"]].
Proof.
  vm_compute. first [reflexivity | apply perm_swap].
Qed.

(** A namespace outlives its last record. *)
Example namespace_after_delete :
  let s := put 0 (init None) ["ns1"] "key1" [("data", PyStr "value1")] None None in
  let s := delete s ["ns1"] "key1" in
  get s ["ns1"] "key1" None = None /\
  list_namespaces s None None None list_namespaces_limit 0 = [["ns1"]].
Proof. by vm_compute. Qed.

(** Records under the empty namespace are what the empty prefix finds. *)
Example search_empty_namespace :
  let s := put 0 (init None) [] "k" [("n", PyInt 1)] None None in
  let s := put 0 s ["a"] "k" [("n", PyInt 2)] None None in
  search s [] None None search_limit 0 None = [[("n", PyInt 1)]].
Proof. by vm_compute. Qed.

(** An expiry entry survives a [put] of the same key without a ttl. *)
Example expiry_survives :
  let s := put 1000 (init None) ["a"] "k" [] None (Some 1.5%float) in
  let s := put 2000 s ["a"] "k" [] None None in
  _ttl_data s = [("a:k", 1090%float)].
Proof. reflexivity. Qed.

End scenarios.

(** * Further properties of the code *)

Local Open Scope list_scope.

(** ** Dictionaries and slices, continued *)

Section more_dict_facts.
Context {K V : Type} `{EqDecision K}.
Implicit Types (d : list (K * V)) (k : K) (v : V).


(** Writing a key the dict has keeps the keys and their order. *)
Lemma keys_set_present d k v :
  is_Some (PyDict.get d k) -> PyDict.keys (PyDict.set d k v) = PyDict.keys d.
Proof.
  unfold PyDict.keys. induction d as [|[k0 v0] d IH]; simpl.
  - by intros [? ?].
  - destruct (decide (k0 = k)) as [->|Hne]; simpl; [done|].
    intros Hk. f_equal. by apply IH.
Qed.

(** Writing a key the dict does not have appends it. *)
Lemma set_absent d k v :
  PyDict.get d k = None -> PyDict.set d k v = d ++ [(k, v)].
Proof.
  induction d as [|[k0 v0] d IH]; simpl; [done|].
  destruct (decide (k0 = k)) as [->|Hne]; [done|]. intros Hk. by rewrite IH.
Qed.

Lemma get_Some_elem d k v : PyDict.get d k = Some v -> (k, v) ∈ d.
Proof.
  induction d as [|[k0 v0] d IH]; simpl; [done|].
  destruct (decide (k0 = k)) as [->|Hne].
  - intros [= ->]. apply list_elem_of_here.
  - intros Hk. by apply list_elem_of_further, IH.
Qed.

Lemma get_is_Some_keys d k : is_Some (PyDict.get d k) <-> k ∈ PyDict.keys d.
Proof.
  rewrite <- not_eq_None_Some, get_None_keys.
  split; [apply dec_stable|by intros ? ?].
Qed.

(** Popping a key a duplicate-free dict has removes one item. *)
Lemma length_pop_present d k :
  PyDict.wf d -> is_Some (PyDict.get d k) ->
  S (length (PyDict.pop d k)) = length d.
Proof.
  unfold PyDict.wf, PyDict.keys, PyDict.pop.
  induction d as [|[k0 v0] d IH]; simpl.
  - by intros _ [? ?].
  - rewrite NoDup_cons. intros [Hnotin Hnd].
    rewrite filter_cons. simpl. destruct (decide (k0 = k)) as [->|Hne].
    + intros _. rewrite decide_False by naive_solver. f_equal.
      change (filter (fun kv : K * V => kv.1 <> k) d) with (PyDict.pop d k).
      rewrite pop_absent; [done|]. by apply get_None_keys.
    + intros Hk. rewrite decide_True by done. simpl. f_equal. by apply IH.
Qed.

Lemma length_set_absent d k v :
  PyDict.get d k = None -> length (PyDict.set d k v) = S (length d).
Proof. intros Hk. rewrite set_absent by done. rewrite length_app. simpl. lia. Qed.

Lemma length_set_present d k v :
  is_Some (PyDict.get d k) -> length (PyDict.set d k v) = length d.
Proof.
  intros Hk. pose proof (keys_set_present d k v Hk) as Hkeys.
  apply (f_equal length) in Hkeys. unfold PyDict.keys in Hkeys.
  by rewrite !length_fmap in Hkeys.
Qed.

End more_dict_facts.

Section more_slice_facts.
Context {A : Type}.
Implicit Types (l : list A).

Lemma py_slice_nonneg l (lo hi : Z) :
  0 <= lo -> 0 <= hi ->
  py_slice (Some lo) (Some hi) l
  = take (Z.to_nat hi - Z.to_nat lo) (drop (Z.to_nat lo) l).
Proof.
  intros Hlo Hhi. unfold py_slice, slice_index.
  destruct (Z.ltb_spec lo 0); [lia|]. destruct (Z.ltb_spec hi 0); [lia|].
  destruct (decide (Z.of_nat (length l) <= lo)) as [Hbig|Hsmall].
  - rewrite !drop_ge by lia. by rewrite !take_nil.
  - rewrite (Z.min_l lo) by lia.
    destruct (decide (hi <= Z.of_nat (length l))) as [Hin|Hout].
    + rewrite (Z.min_l hi) by lia. f_equal. lia.
    + rewrite (Z.min_r hi) by lia.
      rewrite !take_ge; [done|rewrite length_drop; lia..].
Qed.

(** Two windows that follow one another are the window over both. *)
Lemma py_slice_pages l (offset limit limit' : Z) :
  0 <= offset -> 0 <= limit -> 0 <= limit' ->
  py_slice (Some offset) (Some (offset + limit)) l
  ++ py_slice (Some (offset + limit)) (Some (offset + limit + limit')) l
  = py_slice (Some offset) (Some (offset + (limit + limit'))) l.
Proof.
  intros Ho Hl Hl'. rewrite !py_slice_nonneg by lia.
  replace (Z.to_nat (offset + limit) - Z.to_nat offset)%nat
    with (Z.to_nat limit) by lia.
  replace (Z.to_nat (offset + limit + limit') - Z.to_nat (offset + limit))%nat
    with (Z.to_nat limit') by lia.
  replace (Z.to_nat (offset + (limit + limit')) - Z.to_nat offset)%nat
    with (Z.to_nat limit + Z.to_nat limit')%nat by lia.
  replace (Z.to_nat (offset + limit))
    with (Z.to_nat offset + Z.to_nat limit)%nat by lia.
  rewrite <- drop_drop. apply take_take_drop.
Qed.

Lemma py_slice_sublist l lo hi : py_slice lo hi l `sublist_of` l.
Proof.
  unfold py_slice. etrans; [apply sublist_take|apply sublist_drop].
Qed.

Lemma py_slice_length_le l (offset limit : Z) :
  0 <= offset -> 0 <= limit ->
  Z.of_nat (length (py_slice (Some offset) (Some (offset + limit)) l)) <= limit.
Proof.
  intros Ho Hl. rewrite py_slice_nonneg by lia. rewrite length_take. lia.
Qed.

Lemma filter_sublist_of (f : A -> bool) l : List.filter f l `sublist_of` l.
Proof.
  induction l as [|x l IH]; simpl; [constructor|].
  destruct (f x); by constructor.
Qed.

Lemma filter_sublist_mono (f g : A -> bool) l :
  (forall x, x ∈ l -> f x = true -> g x = true) ->
  List.filter f l `sublist_of` List.filter g l.
Proof.
  induction l as [|x l IH]; intros Hfg; simpl; [constructor|].
  assert (List.filter f l `sublist_of` List.filter g l) as IH'.
  { apply IH. intros y Hy. apply Hfg. by apply list_elem_of_further. }
  pose proof (Hfg x (list_elem_of_here _ _)) as Hx.
  destruct (f x) eqn:Ef.
  - rewrite Hx by done. by constructor.
  - destruct (g x); [by constructor|done].
Qed.

Lemma filter_filter_andb (f g : A -> bool) l :
  List.filter g (List.filter f l) = List.filter (fun x => f x && g x) l.
Proof.
  induction l as [|x l IH]; simpl; [done|].
  destruct (f x); simpl; [|done]. destruct (g x); by rewrite IH.
Qed.

(** A filter that is applied only when its argument is given. *)
Lemma filter_option {B} (f : B -> A -> bool) (arg : option B) l :
  List.filter (fun x => match arg with Some b => f b x | None => true end) l
  = match arg with Some b => List.filter (f b) l | None => l end.
Proof.
  destruct arg; [done|]. induction l as [|x l IH]; simpl; by rewrite ?IH.
Qed.

End more_slice_facts.

(** ** InMemoryStore, continued *)

Section more_store_facts.
Context {R : PyRuntime}.
Import InMemoryStore.
Implicit Types (self : t) (ns p : namespace) (key : string) (r : record).

(** A property of [init] that every call keeps holds of every store. *)
Lemma reachable_ind (P : t -> Prop) :
  (forall index, P (init index)) ->
  (forall self o, P self -> P (step self o)) ->
  forall self, reachable self -> P self.
Proof.
  intros Hinit Hstep self (index & ops & ->).
  pose proof (Hinit index) as H0. revert H0. generalize (init index).
  induction ops as [|o ops IH]; intros s Hs; [done|].
  simpl. by apply IH, Hstep.
Qed.

Lemma distinct_composite ns key ns' key' :
  StoreSpec.key_ok (ns, key) = true -> StoreSpec.key_ok (ns', key') = true ->
  (ns, key) <> (ns', key') -> _make_key ns key <> _make_key ns' key'.
Proof.
  intros [? ?]%andb_true_iff [? ?]%andb_true_iff Hne Heq. apply Hne.
  by apply make_key_ok_inj in Heq as [-> ->].
Qed.

(** Isolation: a [put] or a [delete] at one composite key changes neither
    the record nor the expiry entry that is read at another one; two
    well-formed pairs (namespace, leaf key) that differ have different
    composite keys. *)
Theorem store_frame now self ns key value index ttl ns' key' refresh_ttl :
  _make_key ns key <> _make_key ns' key' \/
  (StoreSpec.key_ok (ns, key) = true /\ StoreSpec.key_ok (ns', key') = true /\
   (ns, key) <> (ns', key')) ->
  let after_put := put now self ns key value index ttl in
  let after_delete := delete self ns key in
  get after_put ns' key' refresh_ttl = get self ns' key' refresh_ttl /\
  PyDict.get (_ttl_data after_put) (_make_key ns' key')
  = PyDict.get (_ttl_data self) (_make_key ns' key') /\
  get after_delete ns' key' refresh_ttl = get self ns' key' refresh_ttl /\
  PyDict.get (_ttl_data after_delete) (_make_key ns' key')
  = PyDict.get (_ttl_data self) (_make_key ns' key').
Proof.
  intros Hdistinct.
  assert (_make_key ns key <> _make_key ns' key') as Hne.
  { destruct Hdistinct as [?|(? & ? & ?)]; [done|by apply distinct_composite]. }
  simpl. unfold get. simpl. repeat split.
  - by apply get_set_ne.
  - destruct ttl; [by apply get_set_ne|done].
  - by apply get_pop_ne.
  - by apply get_pop_ne.
Qed.


(** The invariants of a store built from [init]: neither dict has a key
    twice, every expiry entry belongs to a stored record, and every stored
    record is under the composite key of a known namespace. *)
Theorem store_invariants self :
  reachable self ->
  PyDict.wf (_data self) /\ PyDict.wf (_ttl_data self) /\
  (forall ns_key, ns_key ∈ PyDict.keys (_ttl_data self) ->
                  ns_key ∈ PyDict.keys (_data self)) /\
  (forall ns_key, ns_key ∈ PyDict.keys (_data self) ->
     exists ns key, ns_key = _make_key ns key /\ ns ∈ _namespaces self).
Proof.
  intros Hreach. destruct (wf_reachable self Hreach) as [Hd Hx].
  split; [done|]. split; [done|]. split.
  - intros ns_key Hin. apply get_is_Some_keys.
    by apply (expiry_owned_reachable self Hreach), get_is_Some_keys.
  - clear Hd Hx. revert self Hreach.
    apply (reachable_ind (fun self =>
             forall ns_key, ns_key ∈ PyDict.keys (_data self) ->
               exists ns key, ns_key = _make_key ns key /\ ns ∈ _namespaces self)).
    + intros index ns_key Hin. by apply elem_of_nil in Hin.
    + intros self o IH ns_key.
      destruct o as [now ns key value index ttl|ns key| | |]; try apply IH.
      * simpl. rewrite keys_set. intros [->|Hin].
        -- exists ns, key. split; [done|]. set_solver.
        -- destruct (IH ns_key Hin) as (ns0 & key0 & -> & Hns).
           exists ns0, key0. split; [done|]. set_solver.
      * simpl. rewrite keys_pop. intros [_ Hin]. by apply IH.
Qed.

(** The filter test: a record passes when every (field, expected) pair of
    the filter names a field of the record whose value [!=] does not tell
    from the expected one; the order of the pairs does not matter, and a
    filter with fewer pairs passes whenever one with more does. *)
Theorem matches_filter_iff (value filter_dict : record) :
  (_matches_filter value filter_dict = true <->
   forall field expected,
     (field, expected) ∈ filter_dict ->
     exists v, PyDict.get value field = Some v /\ py_ne v expected = false) /\
  (forall smaller : record,
     smaller ⊆ filter_dict ->
     _matches_filter value filter_dict = true ->
     _matches_filter value smaller = true).
Proof.
  assert (forall f : record,
            _matches_filter value f = true <->
            forall field expected,
              (field, expected) ∈ f ->
              exists v, PyDict.get value field = Some v /\
                        py_ne v expected = false) as Hiff.
  { induction f as [|[field expected] f IH]; simpl.
    - split; [|done]. intros _ ? ? Hin. by apply elem_of_nil in Hin.
    - split.
      + intros Hm field' expected' Hin.
        destruct (PyDict.get value field) as [v|] eqn:Hget; [|done].
        destruct (py_ne v expected) eqn:Hne; [done|].
        apply elem_of_cons in Hin as [[= -> ->]|Hin]; [by exists v|].
        by apply IH.
      + intros Hall.
        destruct (Hall field expected) as (v & -> & ->); [apply list_elem_of_here|].
        apply IH. intros ? ? Hin. by apply Hall, list_elem_of_further. }
  split; [apply Hiff|].
  intros smaller Hsub Hm. apply Hiff. intros field expected Hin.
  by apply (proj1 (Hiff filter_dict) Hm), Hsub.
Qed.

End more_store_facts.

(** ** Search and listing, continued *)

Section more_search_facts.
Context {R : PyRuntime}.
Import InMemoryStore.
Implicit Types (self : t) (ns p q : namespace) (key : string) (r : record).

Lemma prefix_iff (a b : string) :
  String.prefix a b = true <-> exists rest, b = a +:+ rest.
Proof.
  revert b. induction a as [|c a IH]; intros b.
  - rewrite prefix_empty. split; [by exists b|done].
  - destruct b as [|d b].
    + split; [done|]. by intros [rest [=]].
    + rewrite prefix_String, andb_true_iff, bool_decide_eq_true, IH. split.
      * intros [-> [rest ->]]. by exists rest.
      * intros [rest [= -> ->]]. split; [done|]. by exists rest.
Qed.

Lemma terminated_app p q : terminated (p ++ q) = terminated p +:+ terminated q.
Proof.
  induction p as [|s p IH]; [done|].
  change (terminated ((s :: p) ++ q)) with (s +:+ ":" +:+ terminated (p ++ q)).
  change (terminated (s :: p)) with (s +:+ ":" +:+ terminated p).
  by rewrite IH, !append_assoc.
Qed.

Lemma prefix_str_terminated p : p <> [] -> _make_key p "" = terminated p.
Proof.
  intros Hp. rewrite make_key_terminated, append_empty_r. by destruct p.
Qed.

(** The encoded prefix of a namespace starts every composite key of that
    namespace. *)
Lemma startswith_own_prefix ns key :
  startswith (_make_key ns key) (_make_key ns "") = true.
Proof.
  unfold startswith. apply prefix_iff. exists key.
  by rewrite !make_key_terminated, append_empty_r.
Qed.

Lemma startswith_longer_prefix p q (ns_key : string) :
  p <> [] ->
  startswith ns_key (_make_key (p ++ q) "") = true ->
  startswith ns_key (_make_key p "") = true.
Proof.
  intros Hp. unfold startswith.
  rewrite !prefix_str_terminated by (by destruct p).
  rewrite terminated_app, !prefix_iff. intros [rest ->].
  exists (terminated q +:+ rest). by rewrite append_assoc.
Qed.

Lemma selected_iff prefix_str filter (item : string * record) :
  selected prefix_str filter item = true <->
  startswith item.1 prefix_str = true /\
  forall f, filter = Some f -> _matches_filter item.2 f = true.
Proof.
  unfold selected. rewrite andb_true_iff. destruct filter as [f|].
  - split; intros [? Hm]; (split; [done|]).
    + by intros ? [= <-].
    + by apply Hm.
  - split; intros [? _]; (split; [done|]); [by intros|done].
Qed.

Lemma search_whole self p query filter limit refresh_ttl :
  Z.of_nat (length (_data self)) <= limit ->
  search self p query filter limit 0 refresh_ttl
  = PyDict.values (List.filter (selected (_make_key p "") filter) (_data self)).
Proof.
  intros Hlim. rewrite search_unfold. apply py_slice_all.
  unfold PyDict.values. rewrite length_fmap.
  pose proof (List.filter_length_le (selected (_make_key p "") filter)
                (_data self)). lia.
Qed.

Lemma search_finds self p query filter limit refresh_ttl ns_key r :
  Z.of_nat (length (_data self)) <= limit ->
  (ns_key, r) ∈ _data self ->
  selected (_make_key p "") filter (ns_key, r) = true ->
  r ∈ search self p query filter limit 0 refresh_ttl.
Proof.
  intros Hlim Hin Hsel. rewrite search_whole by done.
  unfold PyDict.values. apply list_elem_of_fmap. exists (ns_key, r).
  split; [done|]. apply list_elem_of_In, filter_In.
  split; [by apply list_elem_of_In|done].
Qed.

(** What [search] returns: every record returned is stored under a
    composite key that starts with the encoded prefix and passes the
    filter; a window with a non-negative offset and limit returns at most
    [limit] records; and a window from 0 that is as long as the table
    returns every such record. *)
Theorem search_sound_complete self p query filter limit offset refresh_ttl :
  (forall r,
     r ∈ search self p query filter limit offset refresh_ttl ->
     exists ns_key,
       (ns_key, r) ∈ _data self /\
       startswith ns_key (_make_key p "") = true /\
       forall f, filter = Some f -> _matches_filter r f = true) /\
  (0 <= offset -> 0 <= limit ->
   Z.of_nat (length (search self p query filter limit offset refresh_ttl))
   <= limit) /\
  (Z.of_nat (length (_data self)) <= limit ->
   forall ns_key r,
     (ns_key, r) ∈ _data self ->
     startswith ns_key (_make_key p "") = true ->
     (forall f, filter = Some f -> _matches_filter r f = true) ->
     r ∈ search self p query filter limit 0 refresh_ttl).
Proof.
  split; [|split].
  - intros r Hr. rewrite search_unfold in Hr.
    apply py_slice_subseteq in Hr. unfold PyDict.values in Hr.
    apply list_elem_of_fmap in Hr as ([k r'] & -> & Hin).
    apply list_elem_of_In, filter_In in Hin as [Hin Hsel].
    exists k. split; [by apply list_elem_of_In|]. by apply selected_iff in Hsel.
  - intros Ho Hl. rewrite search_unfold. by apply py_slice_length_le.
  - intros Hlim ns_key r Hin Hstart Hm. eapply search_finds; [done..|].
    by apply selected_iff.
Qed.

(** Pages: with non-negative offset and limits, the page of [search] at
    [offset] followed by the page at [offset + limit] is the page of both
    lengths at [offset]; the same holds of [list_namespaces]. *)
Theorem pages_concatenate self p query filter prefix suffix max_depth
    refresh_ttl (offset limit limit' : Z) :
  0 <= offset -> 0 <= limit -> 0 <= limit' ->
  search self p query filter limit offset refresh_ttl
  ++ search self p query filter limit' (offset + limit) refresh_ttl
  = search self p query filter (limit + limit') offset refresh_ttl /\
  list_namespaces self prefix suffix max_depth limit offset
  ++ list_namespaces self prefix suffix max_depth limit' (offset + limit)
  = list_namespaces self prefix suffix max_depth (limit + limit') offset.
Proof.
  intros Ho Hl Hl'. split.
  - rewrite !search_unfold. by apply py_slice_pages.
  - unfold list_namespaces. by apply py_slice_pages.
Qed.

(** The edges of the window of [search]: a limit of 0 and an offset at or
    past the number of matches return nothing; with offset 0 a negative
    limit [-n] does not fail, it returns all the matches but the last
    [n]. *)
Theorem search_window_edges self p query filter refresh_ttl :
  let found :=
    PyDict.values
      (List.filter (selected (_make_key p "") filter) (_data self)) in
  (forall offset, search self p query filter 0 offset refresh_ttl = []) /\
  (forall offset limit,
     Z.of_nat (length found) <= offset ->
     search self p query filter limit offset refresh_ttl = []) /\
  (forall n : nat,
     (0 < n)%nat ->
     search self p query filter (- Z.of_nat n) 0 refresh_ttl
     = take (length found - n) found).
Proof.
  intros found. split; [|split].
  - intros offset. rewrite search_unfold. fold found. unfold py_slice.
    rewrite Z.add_0_r, Z.sub_diag. by rewrite take_0.
  - intros offset limit Hoff. rewrite search_unfold. fold found.
    unfold py_slice, slice_index.
    destruct (Z.ltb_spec offset 0); [lia|].
    rewrite (Z.min_r offset) by lia.
    rewrite drop_ge by lia. by rewrite take_nil.
  - intros n Hn. rewrite search_unfold. fold found.
    unfold py_slice, slice_index. change (0 <? 0) with false. cbv iota.
    destruct (Z.ltb_spec (0 + - Z.of_nat n) 0); [|lia].
    rewrite (Z.min_l 0) by lia. simpl drop. f_equal. lia.
Qed.

(** Narrowing: for a non-empty prefix [p] and a window from 0 that is as
    long as the table, the records found under the longer prefix [p ++ q]
    are found under [p] too, in the same order, whatever the segments
    hold. *)
Theorem search_narrows self p q query filter limit refresh_ttl :
  p <> [] -> Z.of_nat (length (_data self)) <= limit ->
  search self (p ++ q) query filter limit 0 refresh_ttl
  `sublist_of` search self p query filter limit 0 refresh_ttl.
Proof.
  intros Hp Hlim. rewrite !search_whole by done. unfold PyDict.values.
  apply fmap_sublist, filter_sublist_mono. intros item _.
  rewrite !selected_iff. intros [Hstart Hm]. split; [|done].
  by eapply startswith_longer_prefix.
Qed.

(** A record that [get] finds at a namespace is found by [search] with
    that namespace as prefix, the empty namespace included, when the
    filter passes it and the window from 0 is as long as the table. *)
Theorem get_found_by_search self ns key r query filter limit refresh_ttl :
  get self ns key refresh_ttl = Some r ->
  (forall f, filter = Some f -> _matches_filter r f = true) ->
  Z.of_nat (length (_data self)) <= limit ->
  r ∈ search self ns query filter limit 0 refresh_ttl.
Proof.
  intros Hget Hm Hlim. eapply search_finds; [done| |].
  - apply get_Some_elem, Hget.
  - apply selected_iff. split; [apply startswith_own_prefix|done].
Qed.

(** What [list_namespaces] returns: no namespace twice; and, with a window
    from 0 that is as long as the set, the known namespaces that start
    with the prefix, pass the test [ns[-len(suffix):] == suffix] and have
    at most [max_depth] segments, each test applied when its argument is
    given. *)
Theorem list_namespaces_filters self prefix suffix max_depth limit offset :
  NoDup (list_namespaces self prefix suffix max_depth limit offset) /\
  (Z.of_nat (size (_namespaces self)) <= limit ->
   forall ns,
     ns ∈ list_namespaces self prefix suffix max_depth limit 0 <->
     ns ∈ _namespaces self /\
     (forall p, prefix = Some p -> take (length p) ns = p) /\
     (forall s, suffix = Some s -> has_suffix s ns = true) /\
     (forall d, max_depth = Some d -> Z.of_nat (length ns) <= d)).
Proof.
  set (pass := fun ns : namespace =>
         match prefix with Some p => has_prefix p ns | None => true end &&
         match suffix with Some s => has_suffix s ns | None => true end &&
         match max_depth with
         | Some d => Z.of_nat (length ns) <=? d
         | None => true
         end).
  assert (forall limit' offset',
            list_namespaces self prefix suffix max_depth limit' offset'
            = py_slice (Some offset') (Some (offset' + limit'))
                (List.filter pass (elements (_namespaces self)))) as Hshape.
  { intros limit' offset'. unfold list_namespaces. f_equal.
    rewrite <- (filter_option has_prefix prefix), <- (filter_option has_suffix suffix).
    rewrite <- (filter_option (fun d ns => Z.of_nat (length ns) <=? d) max_depth).
    rewrite !filter_filter_andb. apply List.filter_ext. intros ns.
    unfold pass. by rewrite andb_assoc. }
  split.
  - rewrite Hshape.
    apply (sublist_NoDup _ (elements (_namespaces self))); [apply NoDup_elements|].
    etrans; [apply py_slice_sublist|apply filter_sublist_of].
  - intros Hlim ns. rewrite Hshape, py_slice_all.
    + rewrite list_elem_of_In, filter_In, <- list_elem_of_In, elem_of_elements.
      unfold pass. rewrite !andb_true_iff.
      split.
      * intros [Hin [[Hp Hs] Hd]]. split; [done|]. split; [|split].
        -- intros p' ->. by apply bool_decide_eq_true in Hp.
        -- by intros s' ->.
        -- intros d' ->. by apply Z.leb_le.
      * intros [Hin [Hp [Hs Hd]]]. split; [done|]. split; [split|].
        -- destruct prefix as [p'|]; [|done].
           apply bool_decide_eq_true. by apply Hp.
        -- destruct suffix as [s'|]; [|done]. by apply Hs.
        -- destruct max_depth as [d'|]; [|done]. apply Z.leb_le. by apply Hd.
    + etrans; [|apply Hlim]. apply Nat2Z.inj_le, List.filter_length_le.
Qed.

End more_search_facts.

(** ** JSON documents *)

Section json_facts.

Lemma fold_set_fresh {A} (f : A -> pyval) (kvs : list (string * A)) :
  forall acc : record,
    NoDup (acc.*1 ++ kvs.*1) ->
    List.fold_left (fun d kv => PyDict.set d kv.1 (f kv.2)) kvs acc
    = acc ++ ((fun kv => (kv.1, f kv.2)) <$> kvs).
Proof.
  induction kvs as [|[k a] kvs IH]; intros acc Hnd; simpl.
  - by rewrite app_nil_r.
  - rewrite IH.
    + rewrite set_absent; [by rewrite <- app_assoc|].
      apply get_None_keys. unfold PyDict.keys.
      apply NoDup_app in Hnd as (_ & Hdisj & _). intros Hin.
      apply (Hdisj k Hin). simpl. apply list_elem_of_here.
    + rewrite set_absent.
      * rewrite fmap_app. simpl. by rewrite <- app_assoc.
      * apply get_None_keys. unfold PyDict.keys.
        apply NoDup_app in Hnd as (_ & Hdisj & _). intros Hin.
        apply (Hdisj k Hin). simpl. apply list_elem_of_here.
Qed.

(** A value without tuples and without repeated member names is read back
    from its document unchanged. *)
Lemma json_roundtrip : forall v, json_shaped v = true -> json_load (json_dump v) = v.
Proof.
  fix IH 1. intros [ | b | n | x | s | xs | xs | kvs] Hs; try done.
  - simpl in *. f_equal.
    induction xs as [|x xs IHxs]; [done|]. simpl in *.
    apply andb_true_iff in Hs as [Hx Hxs]. f_equal; [by apply IH|by apply IHxs].
  - simpl in Hs. apply andb_true_iff in Hs as [Hnd Hall].
    apply bool_decide_eq_true in Hnd.
    change (json_load (json_dump (PyDict kvs)))
      with (PyDict (List.fold_left
                      (fun d kv => PyDict.set d kv.1 (json_load kv.2))
                      (List.map (fun kv => (kv.1, json_dump kv.2)) kvs) [])).
    f_equal. rewrite fold_set_fresh.
    + simpl. clear Hnd. induction kvs as [|[k v] kvs IHkvs]; [done|].
      simpl in *. apply andb_true_iff in Hall as [Hv Hall].
      f_equal; [f_equal; by apply IH|by apply IHkvs].
    + simpl. replace ((List.map (fun kv => (kv.1, json_dump kv.2)) kvs).*1)
        with (kvs.*1); [done|].
      clear. induction kvs as [|[k v] kvs IHkvs]; [done|]. simpl. by f_equal.
Qed.

Lemma as_dict_records (l : list (string * record)) :
  as_dict as_record (PyDict (List.map (fun kv => (kv.1, PyDict kv.2)) l))
  = Some l.
Proof.
  simpl. induction l as [|[k r] l IH]; [done|]. simpl in *. by rewrite IH.
Qed.

Lemma as_dict_metadata (l : list (string * MemorySaver.metadata)) :
  as_dict DiskBackedMemorySaver.as_metadata
    (PyDict (List.map
               (fun kv => (kv.1, DiskBackedMemorySaver.metadata_value kv.2)) l))
  = Some l.
Proof.
  simpl. induction l as [|[k [x n]] l IH]; [done|]. simpl in *. by rewrite IH.
Qed.

Lemma json_load_object j data : json_load j = PyDict data -> exists kvs, j = JObj kvs.
Proof. destruct j; try done. by eexists. Qed.

End json_facts.

(** ** DiskBackedInMemStore, continued *)

Section more_disk_facts.
Import InMemoryStore DiskBackedInMemStore.
Implicit Types (self : DiskBackedInMemStore.t) (disk : fs) (path : string).

Lemma truthy_Some path : path <> "" -> truthy (Some path) = true.
Proof. intros Hne. simpl. by rewrite (proj2 (String.eqb_neq path "")). Qed.

Lemma save_lookup self disk path :
  persist_path self = Some path -> path <> "" ->
  _save_to_disk self disk !! path
  = Some (Document (json_dump (snapshot self))).
Proof.
  intros Hpath Hne. unfold _save_to_disk.
  rewrite Hpath, truthy_Some by done. apply lookup_insert_eq.
Qed.

Lemma save_id self disk path :
  persist_path self = Some path -> path <> "" ->
  disk !! path = Some (Document (json_dump (snapshot self))) ->
  _save_to_disk self disk = disk.
Proof.
  intros Hpath Hne Hfile. unfold _save_to_disk.
  rewrite Hpath, truthy_Some by done. by apply insert_id.
Qed.

(** The mirror: [put] and [delete] act on the in-memory state as those of
    [InMemoryStore] do and keep the path; they write no file but the one
    at the path, and none at all when the path is [None] or empty. *)
Theorem disk_store_mirrors now self disk ns key value index ttl :
  let after_put := DiskBackedInMemStore.put now self disk ns key value index ttl in
  let after_delete := DiskBackedInMemStore.delete self disk ns key in
  base after_put.1 = InMemoryStore.put now (base self) ns key value index ttl /\
  base after_delete.1 = InMemoryStore.delete (base self) ns key /\
  persist_path after_put.1 = persist_path self /\
  persist_path after_delete.1 = persist_path self /\
  (forall other,
     persist_path self <> Some other ->
     after_put.2 !! other = disk !! other /\
     after_delete.2 !! other = disk !! other) /\
  (truthy (persist_path self) = false ->
   after_put.2 = disk /\ after_delete.2 = disk).
Proof.
  simpl. repeat split.
  - unfold _save_to_disk. simpl. destruct (persist_path self) as [path|]; [|done].
    destruct (truthy (Some path)); [|done].
    apply lookup_insert_ne. congruence.
  - unfold _save_to_disk. simpl. destruct (persist_path self) as [path|]; [|done].
    destruct (truthy (Some path)); [|done].
    apply lookup_insert_ne. congruence.
  - unfold _save_to_disk. simpl. destruct (persist_path self); [|done].
    by destruct (truthy _).
  - unfold _save_to_disk. simpl. destruct (persist_path self); [|done].
    by destruct (truthy _).
Qed.

(** Building a store on a path: a missing file, an unparsable file and the
    empty object give the empty store; a document that is not an object
    raises [AttributeError]; without a path, or with the empty path, the
    disk is not read. *)
Theorem disk_store_init_edges path index disk :
  path <> "" ->
  let empty p := {| base := InMemoryStore.init index; persist_path := p |} in
  (disk !! path = None \/ disk !! path = Some Unparsable \/
   disk !! path = Some (Document (JObj [])) ->
   DiskBackedInMemStore.init (Some path) index disk = Ok (empty (Some path))) /\
  (forall j,
     disk !! path = Some (Document j) -> (forall kvs, j <> JObj kvs) ->
     DiskBackedInMemStore.init (Some path) index disk = Raise AttributeError) /\
  DiskBackedInMemStore.init None index disk = Ok (empty None) /\
  DiskBackedInMemStore.init (Some "") index disk = Ok (empty (Some "")).
Proof.
  intros Hne empty. unfold DiskBackedInMemStore.init.
  rewrite truthy_Some by done. unfold _load_from_disk. simpl persist_path.
  split; [|split; [|done]].
  - intros [->|[->| ->]]; done.
  - intros j -> Hj. destruct (json_load j) as [| | | | | | |data] eqn:Hload; try done.
    apply json_load_object in Hload as [kvs ->]. by destruct (Hj kvs).
Qed.

Lemma disk_run_path st ops :
  persist_path (disk_run st ops).1 = persist_path st.1.
Proof.
  revert st. induction ops as [|o ops IH]; intros st; [done|].
  simpl. rewrite IH. by destruct o.
Qed.

Lemma disk_run_namespaces st ops :
  _namespaces (base (disk_run st ops).1) = ∅ <->
  _namespaces (base st.1) = ∅ /\ existsb is_put ops = false.
Proof.
  revert st. induction ops as [|o ops IH]; intros st; simpl.
  - naive_solver.
  - rewrite IH. destruct o; simpl; try naive_solver.
    split; [|by intros [_ [=]]]. intros [Hns _]. set_solver.
Qed.

Lemma mirrored_run path index ops : forall st,
  path <> "" -> mirrored path index st -> mirrored path index (disk_run st ops).
Proof.
  induction ops as [|o ops IH]; intros st Hne Hst; [done|].
  simpl. apply IH; [done|]. destruct Hst as (Hpath & Hempty & Hfile).
  destruct o as [now ns key value index' ttl|ns key| | |]; try done.
  - split; [done|]. split.
    + simpl. set_solver.
    + right. by apply save_lookup.
  - split; [done|]. split.
    + simpl. intros Hns. rewrite (Hempty Hns). done.
    + right. by apply save_lookup.
Qed.

(** The round trip of the mirror, along any trace that starts with no file
    at the path: while no [put] has been made, a new store built on the
    path is the store of the trace; after a [put], building it raises
    [TypeError]. *)
Theorem disk_store_reload path index disk ops :
  path <> "" -> disk !! path = None ->
  let fresh := {| base := InMemoryStore.init index;
                  persist_path := Some path |} in
  let final := disk_run (fresh, disk) ops in
  DiskBackedInMemStore.init (Some path) index final.2
  = if existsb is_put ops then Raise TypeError else Ok final.1.
Proof.
  intros Hne Hfile fresh final.
  assert (mirrored path index final) as (Hpath & Hempty & Hdisk).
  { apply mirrored_run; [done|]. split; [done|]. split; [done|]. by left. }
  pose proof (disk_run_namespaces (fresh, disk) ops) as Hns. fold final in Hns.
  destruct (existsb is_put ops) eqn:Hput.
  - assert (_namespaces (base final.1) <> ∅) as Hknown.
    { intros Hns'. apply Hns in Hns' as [_ [=]]. }
    destruct Hdisk as [[_ Hbase]|Hdisk].
    { rewrite Hbase in Hknown. done. }
    rewrite <- (save_id final.1 final.2 path) by done.
    by apply reload_raises.
  - assert (base final.1 = InMemoryStore.init index) as Hbase.
    { apply Hempty, Hns. done. }
    assert (final.1 = fresh) as Hfinal.
    { destruct final.1 as [b p]. simpl in *. by subst. }
    unfold DiskBackedInMemStore.init. rewrite truthy_Some by done.
    unfold _load_from_disk. simpl persist_path.
    destruct Hdisk as [[-> _]|Hdisk]; [by rewrite Hfinal|].
    rewrite Hdisk, Hfinal. reflexivity.
Qed.

End more_disk_facts.

(** ** MemorySaver, continued *)

Section more_saver_facts.
Context {R : PyRuntime}.
Import MemorySaver.
Implicit Types (self : MemorySaver.t) (thread_id : string) (checkpoint : record).

Lemma keys_set_same {V W} (d : list (string * V)) (e : list (string * W))
    (k : string) v w :
  PyDict.keys d = PyDict.keys e ->
  PyDict.keys (PyDict.set d k v) = PyDict.keys (PyDict.set e k w).
Proof.
  unfold PyDict.keys. revert e.
  induction d as [|[k0 v0] d IH]; intros [|[k1 w1] e]; simpl; try done.
  intros [= -> Hkeys]. destruct (decide (k1 = k)); simpl; f_equal; [done|].
  by apply IH.
Qed.

Lemma keys_pop_same {V W} (d : list (string * V)) (e : list (string * W))
    (k : string) :
  PyDict.keys d = PyDict.keys e ->
  PyDict.keys (PyDict.pop d k) = PyDict.keys (PyDict.pop e k).
Proof.
  unfold PyDict.keys, PyDict.pop. revert e.
  induction d as [|[k0 v0] d IH]; intros [|[k1 w1] e]; simpl; try done.
  intros [= -> Hkeys]. rewrite !filter_cons. simpl.
  destruct (decide (k1 <> k)); simpl; [f_equal|]; by apply IH.
Qed.

Lemma aligned_step self o : aligned self -> aligned (saver_step self o).
Proof.
  intros [Hkeys Hwf]. destruct o; try done; simpl.
  - split; [by apply keys_set_same|by apply wf_set].
  - split; [by apply keys_pop_same|by apply wf_pop].
  - split; [done|apply NoDup_nil_2].
Qed.

Lemma aligned_run ops : forall self, aligned self -> aligned (saver_run self ops).
Proof.
  induction ops as [|o ops IH]; intros self Hself; [done|].
  simpl. by apply IH, aligned_step.
Qed.

Lemma aligned_init : aligned MemorySaver.init.
Proof. split; [done|apply NoDup_nil_2]. Qed.

(** Isolation: a [put] or a [delete] for one thread changes neither the
    checkpoint nor the metadata of another thread. *)
Theorem saver_frame now self thread_id checkpoint other :
  thread_id <> other ->
  get (put now self thread_id checkpoint) other = get self other /\
  get_metadata (put now self thread_id checkpoint) other
  = get_metadata self other /\
  get (delete self thread_id) other = get self other /\
  get_metadata (delete self thread_id) other = get_metadata self other.
Proof.
  intros Hne. unfold get, get_metadata. simpl.
  by rewrite !(get_set_ne _ _ _ _ Hne), !(get_pop_ne _ _ _ Hne).
Qed.

(** The invariants of a saver built from [init]: a thread has a checkpoint
    exactly when it has metadata, when [list_threads] lists it and when
    [thread_id in saver] holds; [list_threads] lists no thread twice, and
    [len(saver)] is the number of threads listed. *)
Theorem saver_invariants ops thread_id :
  let self := saver_run MemorySaver.init ops in
  (is_Some (get self thread_id) <-> is_Some (get_metadata self thread_id)) /\
  (is_Some (get self thread_id) <-> thread_id ∈ list_threads self) /\
  (saver_contains self thread_id = true <-> thread_id ∈ list_threads self) /\
  NoDup (list_threads self) /\
  saver_len self = Z.of_nat (length (list_threads self)).
Proof.
  intros self.
  destruct (aligned_run ops MemorySaver.init aligned_init) as [Hkeys Hwf].
  fold self in Hkeys, Hwf.
  unfold get, get_metadata, list_threads, saver_contains, saver_len.
  split; [|split; [|split; [|split; [done|]]]].
  - by rewrite !get_is_Some_keys, Hkeys.
  - apply get_is_Some_keys.
  - unfold PyDict.contains. rewrite bool_decide_eq_true.
    apply get_is_Some_keys.
  - unfold PyDict.keys. by rewrite length_fmap.
Qed.

(** How [len(saver)] moves on a saver built from [init]: a [put] for a new
    thread adds one and a [put] for a known thread adds nothing; a
    [delete] of a known thread takes one away and a [delete] of an unknown
    thread changes nothing; after [clear_all] it is 0 and no thread has a
    checkpoint or metadata. *)
Theorem saver_len_changes ops now thread_id checkpoint :
  let self := saver_run MemorySaver.init ops in
  (saver_len (put now self thread_id checkpoint)
   = if saver_contains self thread_id
     then saver_len self else saver_len self + 1) /\
  (saver_len (delete self thread_id)
   = if saver_contains self thread_id
     then saver_len self - 1 else saver_len self) /\
  (saver_contains self thread_id = false -> delete self thread_id = self) /\
  saver_len (clear_all self) = 0 /\
  (forall other, get (clear_all self) other = None /\
                 get_metadata (clear_all self) other = None) /\
  list_threads (clear_all self) = [].
Proof.
  intros self.
  destruct (aligned_run ops MemorySaver.init aligned_init) as [Hkeys Hwf].
  fold self in Hkeys, Hwf.
  unfold saver_len, saver_contains, PyDict.contains. simpl.
  split; [|split; [|split; [|done]]].
  - case_bool_decide as Hin.
    + by rewrite length_set_present.
    + rewrite length_set_absent; [lia|]. by apply eq_None_not_Some.
  - case_bool_decide as Hin.
    + pose proof (length_pop_present _ thread_id Hwf Hin). lia.
    + rewrite pop_absent; [done|]. by apply eq_None_not_Some.
  - rewrite bool_decide_eq_false. intros Hin.
    assert (PyDict.get (_checkpoints self) thread_id = None) as Hc
      by (by apply eq_None_not_Some).
    assert (PyDict.get (_metadata self) thread_id = None) as Hm.
    { apply get_None_keys. rewrite <- Hkeys. by apply get_None_keys. }
    unfold delete. rewrite !pop_absent by done. by destruct self.
Qed.

(** The handle: [load] after [save] returns the checkpoint saved; the
    handle of a [with saver] block is bound to the thread ["default"], so
    what it saves is what [get("default")] returns, a later block replaces
    it, and the other threads keep their checkpoints. *)
Theorem context_save_load now now' self (ctx : CheckpointContext.t)
    checkpoint checkpoint' :
  CheckpointContext.load ctx (CheckpointContext.save now ctx self checkpoint)
  = Some checkpoint /\
  (forall thread_id,
     CheckpointContext.load (checkpoint_context self thread_id)
       (put now self thread_id checkpoint) = Some checkpoint) /\
  let block1 := CheckpointContext.save now (saver_enter self) self checkpoint in
  let block2 :=
    CheckpointContext.save now' (saver_enter block1) block1 checkpoint' in
  get block1 "default" = Some checkpoint /\
  get block2 "default" = Some checkpoint' /\
  (forall other, other <> "default" -> get block2 other = get self other).
Proof.
  unfold CheckpointContext.load, CheckpointContext.save, get. simpl.
  rewrite !get_set_eq. repeat split; try done.
  - intros thread_id. apply get_set_eq.
  - intros other Hne. by rewrite !get_set_ne.
Qed.

End more_saver_facts.

(** ** DiskBackedMemorySaver *)

Section disk_saver_facts.
Context {R : PyRuntime}.
Import MemorySaver DiskBackedMemorySaver.
Implicit Types (self : DiskBackedMemorySaver.t) (disk : fs) (path : string).

Lemma map_keys {V W} (f : V -> W) (l : list (string * V)) :
  (List.map (fun kv => (kv.1, f kv.2)) l).*1 = l.*1.
Proof. induction l as [|[k v] l IH]; [done|]. simpl. by f_equal. Qed.

Lemma checkpoints_shaped (l : list (string * record)) :
  PyDict.wf l -> Forall (fun kv => json_shaped (PyDict kv.2) = true) l ->
  json_shaped (PyDict (List.map (fun kv => (kv.1, PyDict kv.2)) l)) = true.
Proof.
  intros Hwf Hall. change (json_shaped (PyDict ?kvs))
    with (bool_decide (NoDup kvs.*1) && forallb (fun kv => json_shaped kv.2) kvs).
  rewrite map_keys, bool_decide_eq_true_2 by done. simpl.
  induction Hall as [|[k r] l Hr Hall IH]; [done|].
  apply NoDup_cons in Hwf as [_ Hwf].
  change (json_shaped (PyDict r) && forallb (fun kv => json_shaped kv.2)
            (List.map (fun kv => (kv.1, PyDict kv.2)) l) = true).
  change (json_shaped (PyDict r) = true) in Hr. rewrite Hr. by apply IH.
Qed.

Lemma metadata_shaped (l : list (string * metadata)) :
  PyDict.wf l ->
  json_shaped (PyDict (List.map (fun kv => (kv.1, metadata_value kv.2)) l)) = true.
Proof.
  intros Hwf. change (json_shaped (PyDict ?kvs))
    with (bool_decide (NoDup kvs.*1) && forallb (fun kv => json_shaped kv.2) kvs).
  rewrite map_keys, bool_decide_eq_true_2 by done. simpl.
  clear Hwf. induction l as [|[k md] l IH]; [done|]. simpl. exact IH.
Qed.

(** A saver whose file is its snapshot is what a new saver on the path is
    built as. *)
Lemma saver_reload_state self disk path :
  persist_path self = Some path -> path <> "" ->
  PyDict.wf (_checkpoints (base self)) -> PyDict.wf (_metadata (base self)) ->
  Forall (fun kv => json_shaped (PyDict kv.2) = true) (_checkpoints (base self)) ->
  disk !! path = Some (Document (json_dump (snapshot self))) ->
  DiskBackedMemorySaver.init (Some path) disk = Ok self.
Proof.
  intros Hpath Hne Hc Hm Hshaped Hfile.
  unfold DiskBackedMemorySaver.init. rewrite truthy_Some by done.
  unfold _load_from_disk. simpl persist_path. cbv beta iota. rewrite Hfile.
  change (json_load (json_dump (snapshot self)))
    with (PyDict
            [("checkpoints", json_load (json_dump (PyDict
                (List.map (fun kv => (kv.1, PyDict kv.2))
                   (_checkpoints (base self))))));
             ("metadata", json_load (json_dump (PyDict
                (List.map (fun kv => (kv.1, metadata_value kv.2))
                   (_metadata (base self))))))]).
  cbv beta iota.
  change (DiskBackedInMemStore.member _ "checkpoints" _)
    with (json_load (json_dump (PyDict
            (List.map (fun kv => (kv.1, PyDict kv.2))
               (_checkpoints (base self)))))).
  change (DiskBackedInMemStore.member _ "metadata" _)
    with (json_load (json_dump (PyDict
            (List.map (fun kv => (kv.1, metadata_value kv.2))
               (_metadata (base self)))))).
  rewrite !json_roundtrip by auto using checkpoints_shaped, metadata_shaped.
  rewrite as_dict_records, as_dict_metadata. simpl.
  destruct self as [[c m] p]. simpl in *. by subst.
Qed.

Lemma saver_mirrored_step path st o :
  path <> "" -> saver_op_shaped o = true ->
  saver_mirrored path st -> saver_mirrored path (DiskBackedMemorySaver.step st o).
Proof.
  intros Hne Ho (Hpath & Hc & Hm & Hshaped & Hfile).
  assert (forall self' : DiskBackedMemorySaver.t,
            persist_path self' = Some path ->
            DiskBackedMemorySaver._save_to_disk self' st.2 !! path
            = Some (Document (json_dump (snapshot self')))) as Hsave.
  { intros self' Hp. unfold DiskBackedMemorySaver._save_to_disk.
    rewrite Hp, truthy_Some by done. apply lookup_insert_eq. }
  destruct o as [now thread_id checkpoint|thread_id| | | |]; try done.
  - split; [done|]. simpl. split; [by apply wf_set|]. split; [by apply wf_set|].
    split; [by apply Forall_set|]. right. by apply Hsave.
  - split; [done|]. simpl. split; [by apply wf_pop|]. split; [by apply wf_pop|].
    split; [by apply Forall_pop|]. right. by apply Hsave.
  - split; [done|]. simpl. split; [apply NoDup_nil_2|]. split; [apply NoDup_nil_2|].
    split; [constructor|]. right. by apply Hsave.
Qed.

(** The round trip of the checkpoint mirror: along any trace of [put],
    [delete] and [clear_all] that starts with no file at the path and
    stores checkpoints without tuples, a new saver built on the path is the
    saver of the trace, checkpoints and metadata. *)
Theorem disk_saver_reload path disk ops :
  path <> "" -> disk !! path = None ->
  forallb saver_op_shaped ops = true ->
  let fresh := {| base := MemorySaver.init; persist_path := Some path |} in
  let final := DiskBackedMemorySaver.run (fresh, disk) ops in
  DiskBackedMemorySaver.init (Some path) final.2 = Ok final.1.
Proof.
  intros Hne Hfile Hops fresh final.
  assert (saver_mirrored path final) as (Hpath & Hc & Hm & Hshaped & Hdisk).
  { assert (saver_mirrored path (fresh, disk)) as H0.
    { split; [done|]. split; [apply NoDup_nil_2|]. split; [apply NoDup_nil_2|].
      split; [constructor|]. by left. }
    unfold final. revert H0 Hops. generalize (fresh, disk).
    induction ops as [|o ops IH]; intros st Hst Hops; [done|].
    simpl in Hops. apply andb_true_iff in Hops as [Ho Hops].
    simpl. apply IH; [|done]. by apply saver_mirrored_step. }
  destruct Hdisk as [[Hnone Hbase]|Hdisk]; [|by eapply saver_reload_state].
  unfold DiskBackedMemorySaver.init. rewrite truthy_Some by done.
  unfold _load_from_disk. simpl persist_path. cbv beta iota. rewrite Hnone.
  destruct final.1 as [b p]. simpl in *. by subst.
Qed.

(** Building a saver on a path: a missing file, an unparsable file and the
    empty object give the empty saver; a document that is not an object
    raises [AttributeError]; without a path, or with the empty path, the
    disk is not read. *)
Theorem disk_saver_init_edges path disk :
  path <> "" ->
  let empty p := {| base := MemorySaver.init; persist_path := p |} in
  (disk !! path = None \/ disk !! path = Some Unparsable \/
   disk !! path = Some (Document (JObj [])) ->
   DiskBackedMemorySaver.init (Some path) disk = Ok (empty (Some path))) /\
  (forall j,
     disk !! path = Some (Document j) -> (forall kvs, j <> JObj kvs) ->
     DiskBackedMemorySaver.init (Some path) disk = Raise AttributeError) /\
  DiskBackedMemorySaver.init None disk = Ok (empty None) /\
  DiskBackedMemorySaver.init (Some "") disk = Ok (empty (Some "")).
Proof.
  intros Hne empty. unfold DiskBackedMemorySaver.init.
  rewrite truthy_Some by done. unfold _load_from_disk. simpl persist_path. cbv beta iota.
  split; [|split; [|done]].
  - intros [->|[->| ->]]; done.
  - intros j -> Hj. destruct (json_load j) as [| | | | | | |data] eqn:Hload; try done.
    apply json_load_object in Hload as [kvs ->]. by destruct (Hj kvs).
Qed.

End disk_saver_facts.

(** ** The lint script *)

Section lint_facts.
Import Lint.
Variable subprocess_run : list string -> completed.

Lemma run_success (linter : Linter) (target : string) :
  (run subprocess_run linter target).1 = true <->
  exists stdout stderr,
    subprocess_run (command linter ++ [target]) = Completed 0 stdout stderr.
Proof.
  unfold run. destruct (subprocess_run _) as [|returncode stdout stderr]; simpl.
  - split; [done|]. by intros (? & ? & [=]).
  - rewrite Z.eqb_eq. split.
    + intros ->. by eexists _, _.
    + by intros (? & ? & [= -> _ _]).
Qed.

Lemma run_tests_success :
  (run_tests subprocess_run).1 = true <->
  exists stdout stderr, subprocess_run pytest_command = Completed 0 stdout stderr.
Proof.
  unfold run_tests.
  destruct (subprocess_run _) as [|returncode stdout stderr]; simpl.
  - split; [done|]. by intros (? & ? & [=]).
  - rewrite Z.eqb_eq. split.
    + intros ->. by eexists _, _.
    + by intros (? & ? & [= -> _ _]).
Qed.

(** The exit code of the script: every one of the five linters and then
    pytest is run, whatever the ones before it returned, and the code is 0
    exactly when each of the six commands was found and returned 0;
    otherwise it is 1. *)
Theorem lint_exit_code :
  PyDict.keys (results subprocess_run)
  = ["black"; "isort"; "flake8"; "mypy"; "pylint"; "pytest"] /\
  (main subprocess_run = 0 <->
   Forall (fun cmd => exists stdout stderr,
             subprocess_run cmd = Completed 0 stdout stderr) commands) /\
  (main subprocess_run <> 0 -> main subprocess_run = 1).
Proof.
  split; [done|]. split.
  - unfold main.
    change (results subprocess_run)
      with [("black", run subprocess_run (mk "black" ["black"; "--check"; "--diff"] "Code formatting check") ".");
            ("isort", run subprocess_run (mk "isort" ["isort"; "--check-only"; "--diff"] "Import sorting check") ".");
            ("flake8", run subprocess_run (mk "flake8" ["flake8"] "Style and error checking") ".");
            ("mypy", run subprocess_run (mk "mypy" ["mypy"; "langgraph_runtime_inmem_open"] "Type checking") ".");
            ("pylint", run subprocess_run (mk "pylint" ["pylint"; "langgraph_runtime_inmem_open"] "Comprehensive code analysis") ".");
            ("pytest", run_tests subprocess_run)].
    change commands
      with [["black"; "--check"; "--diff"; "."];
            ["isort"; "--check-only"; "--diff"; "."];
            ["flake8"; "."];
            ["mypy"; "langgraph_runtime_inmem_open"; "."];
            ["pylint"; "langgraph_runtime_inmem_open"; "."];
            pytest_command].
    rewrite !Forall_cons, Forall_nil.
    pose proof (run_success (mk "black" ["black"; "--check"; "--diff"] "Code formatting check") ".") as H1.
    pose proof (run_success (mk "isort" ["isort"; "--check-only"; "--diff"] "Import sorting check") ".") as H2.
    pose proof (run_success (mk "flake8" ["flake8"] "Style and error checking") ".") as H3.
    pose proof (run_success (mk "mypy" ["mypy"; "langgraph_runtime_inmem_open"] "Type checking") ".") as H4.
    pose proof (run_success (mk "pylint" ["pylint"; "langgraph_runtime_inmem_open"] "Comprehensive code analysis") ".") as H5.
    pose proof run_tests_success as H6.
    simpl command in *. simpl app in *.
    rewrite <- H1, <- H2, <- H3, <- H4, <- H5, <- H6.
    destruct (forallb _ _) eqn:Hall; simpl in Hall.
    + rewrite !andb_true_iff in Hall. naive_solver.
    + split; [done|]. intros (E1 & E2 & E3 & E4 & E5 & E6 & _).
      by rewrite E1, E2, E3, E4, E5, E6 in Hall.
  - unfold main. by destruct (forallb _ _).
Qed.

End lint_facts.

(** ** The further properties at concrete inputs *)

Section more_witnesses.
Import InMemoryStore.

(** [test_namespace_operations]: the two users do not see each other's
    record. *)
Lemma store_frame_witness :
  let s := put 0 (init None) ["user"; "123"] "key1" [("data", PyStr "value1")]
             None None in
  get (put 0 s ["user"; "456"] "key1" [("data", PyStr "value2")] None None)
    ["user"; "123"] "key1" None
  = Some [("data", PyStr "value1")].
Proof.
  intros s.
  destruct (store_frame 0 s ["user"; "456"] "key1" [("data", PyStr "value2")]
              None None ["user"; "123"] "key1" None) as [Hget _].
  - right. split; [reflexivity|]. split; [reflexivity|discriminate].
  - rewrite Hget. reflexivity.
Defined.


Lemma store_invariants_witness :
  let s := run (init None)
             [Put 0 ["a"] "k" [] None (Some 1%float); Delete ["a"] "k";
              Put 0 ["b"] "k" [] None None] in
  PyDict.wf (_data s) /\ PyDict.wf (_ttl_data s).
Proof.
  intros s.
  destruct (store_invariants s) as (Hd & Hx & _); [by eexists None, _|].
  by split.
Defined.

Lemma matches_filter_iff_witness :
  @_matches_filter example_runtime
    [("data", PyStr "value1"); ("type", PyStr "test")]
    [("type", PyStr "test")] = true.
Proof.
  apply (proj2 (matches_filter_iff (R := example_runtime)
                  [("data", PyStr "value1"); ("type", PyStr "test")]
                  [("data", PyStr "value1"); ("type", PyStr "test")])).
  - set_solver.
  - reflexivity.
Defined.

Lemma search_sound_complete_witness :
  let s := put 0 (init None) ["a"; "b"] "k" [("type", PyStr "x")] None None in
  [("type", PyStr "x")]
  ∈ @search example_runtime s ["a"] None (Some [("type", PyStr "x")])
      search_limit 0 None.
Proof.
  intros s.
  apply (search_sound_complete (R := example_runtime) s ["a"] None
           (Some [("type", PyStr "x")]) search_limit 0 None)
    with (ns_key := "a:b:k").
  - vm_compute. discriminate.
  - apply list_elem_of_here.
  - reflexivity.
  - by intros f [= <-].
Defined.

Lemma pages_concatenate_witness :
  let s := run (init None)
             [Put 0 ["a"] "k1" [("n", PyInt 1)] None None;
              Put 0 ["a"] "k2" [("n", PyInt 2)] None None;
              Put 0 ["a"] "k3" [("n", PyInt 3)] None None] in
  @search example_runtime s ["a"] None None 1 0 None
  ++ @search example_runtime s ["a"] None None 2 1 None
  = [[("n", PyInt 1)]; [("n", PyInt 2)]; [("n", PyInt 3)]].
Proof.
  intros s.
  destruct (pages_concatenate (R := example_runtime) s ["a"] None None
              None None None None 0 1 2) as [Hpages _]; [done..|].
  change (0 + 1) with 1 in Hpages. rewrite Hpages. reflexivity.
Defined.

Lemma search_window_edges_witness :
  let s := run (init None)
             [Put 0 ["a"] "k1" [("n", PyInt 1)] None None;
              Put 0 ["a"] "k2" [("n", PyInt 2)] None None;
              Put 0 ["a"] "k3" [("n", PyInt 3)] None None] in
  @search example_runtime s ["a"] None None (-1) 0 None
  = [[("n", PyInt 1)]; [("n", PyInt 2)]].
Proof.
  intros s.
  destruct (search_window_edges (R := example_runtime) s ["a"] None None None)
    as (_ & _ & Hneg).
  specialize (Hneg 1%nat ltac:(repeat constructor)).
  change (- Z.of_nat 1) with (-1) in Hneg. rewrite Hneg. reflexivity.
Defined.

Lemma search_narrows_witness :
  let s := run (init None)
             [Put 0 ["a"; "b"] "k" [("n", PyInt 1)] None None;
              Put 0 ["a"; "c"] "k" [("n", PyInt 2)] None None] in
  @search example_runtime s (["a"] ++ ["b"]) None None search_limit 0 None
  `sublist_of` @search example_runtime s ["a"] None None search_limit 0 None.
Proof.
  intros s.
  apply (search_narrows (R := example_runtime) s ["a"] ["b"] None None
           search_limit None).
  - discriminate.
  - vm_compute. discriminate.
Defined.

Lemma get_found_by_search_witness :
  let s := put 0 (init None) [] "k" [("n", PyInt 1)] None None in
  [("n", PyInt 1)] ∈ @search example_runtime s [] None None search_limit 0 None.
Proof.
  intros s.
  apply (get_found_by_search (R := example_runtime) s [] "k" [("n", PyInt 1)]
           None None search_limit None).
  - reflexivity.
  - discriminate.
  - vm_compute. discriminate.
Defined.

Lemma list_namespaces_filters_witness :
  let s := run (init None)
             [Put 0 ["user"; "1"] "profile" [] None None;
              Put 0 ["user"; "1"; "notes"] "n1" [] None None;
              Put 0 ["team"] "t" [] None None] in
  ["user"; "1"]
  ∈ list_namespaces s (Some ["user"]) None (Some 2) list_namespaces_limit 0.
Proof.
  intros s.
  apply (proj2 (list_namespaces_filters s (Some ["user"]) None (Some 2)
                  list_namespaces_limit 0)).
  - vm_compute. discriminate.
  - split; [|split; [|split]].
    + vm_compute. reflexivity.
    + by intros p [= <-].
    + discriminate.
    + intros d [= <-]. done.
Defined.

Lemma disk_store_mirrors_witness :
  let self := {| DiskBackedInMemStore.base := init None;
                 DiskBackedInMemStore.persist_path := Some "store.json" |} in
  let disk : fs := {[ "other.json" := Unparsable ]} in
  (DiskBackedInMemStore.put 0 self disk ["a"] "k" [] None None).2
    !! "other.json" = Some Unparsable.
Proof.
  intros self disk.
  destruct (disk_store_mirrors 0 self disk ["a"] "k" [] None None)
    as (_ & _ & _ & _ & Hother & _).
  destruct (Hother "other.json") as [-> _]; [discriminate|reflexivity].
Defined.

Lemma disk_store_init_edges_witness :
  DiskBackedInMemStore.init (Some "store.json") None
    {[ "store.json" := Document (JArr []) ]}
  = Raise AttributeError.
Proof.
  apply (disk_store_init_edges "store.json" None
           {[ "store.json" := Document (JArr []) ]} ltac:(discriminate))
    with (j := JArr []).
  - reflexivity.
  - discriminate.
Defined.

Lemma disk_store_reload_witness :
  let fresh := {| DiskBackedInMemStore.base := init None;
                  DiskBackedInMemStore.persist_path := Some "store.json" |} in
  let final := disk_run (fresh, ∅) [Delete ["a"] "k"] in
  final.2 !! "store.json"
  = Some (Document (JObj [("data", JObj []); ("namespaces", JArr []);
                          ("ttl_data", JObj [])])) /\
  DiskBackedInMemStore.init (Some "store.json") None final.2 = Ok final.1.
Proof.
  intros fresh final. split; [reflexivity|].
  apply (disk_store_reload "store.json" None ∅ [Delete ["a"] "k"]).
  - discriminate.
  - reflexivity.
Defined.

Lemma saver_frame_witness :
  let s := @MemorySaver.put example_runtime 1 MemorySaver.init "threadA"
             [("step", PyInt 1)] in
  MemorySaver.get
    (@MemorySaver.put example_runtime 2 s "threadB" [("step", PyInt 7)])
    "threadA"
  = Some [("step", PyInt 1)].
Proof.
  intros s.
  destruct (saver_frame (R := example_runtime) 2 s "threadB"
              [("step", PyInt 7)] "threadA") as [Hget _].
  - discriminate.
  - rewrite Hget. reflexivity.
Defined.

Lemma saver_len_changes_witness :
  let s := @saver_run example_runtime MemorySaver.init
             [SaverPut 1 "threadA" [("step", PyInt 1)]] in
  MemorySaver.delete s "threadB" = s.
Proof.
  intros s.
  apply (saver_len_changes (R := example_runtime)
           [SaverPut 1 "threadA" [("step", PyInt 1)]] 0 "threadB" []).
  reflexivity.
Defined.

Lemma context_save_load_witness :
  let s := @MemorySaver.put example_runtime 1 MemorySaver.init "threadA"
             [("step", PyInt 1)] in
  let block1 :=
    @CheckpointContext.save example_runtime 2 (saver_enter s) s
      [("step", PyInt 2)] in
  let block2 :=
    @CheckpointContext.save example_runtime 3 (saver_enter block1) block1
      [("step", PyInt 3)] in
  MemorySaver.get block2 "threadA" = Some [("step", PyInt 1)].
Proof.
  intros s block1 block2.
  destruct (context_save_load (R := example_runtime) 2 3 s (saver_enter s)
              [("step", PyInt 2)] [("step", PyInt 3)])
    as (_ & _ & _ & _ & Hother).
  unfold block2, block1. rewrite Hother; [reflexivity|discriminate].
Defined.

Lemma disk_saver_reload_witness :
  let fresh := {| DiskBackedMemorySaver.base := MemorySaver.init;
                  DiskBackedMemorySaver.persist_path := Some "chk.json" |} in
  let final :=
    @DiskBackedMemorySaver.run example_runtime (fresh, ∅)
      [SaverPut 1.5 "threadA" [("step", PyInt 1); ("tags", PyList [PyStr "x"])];
       SaverPut 2.5 "threadB" [("step", PyInt 2)];
       SaverDelete "threadB"] in
  MemorySaver.get (DiskBackedMemorySaver.base final.1) "threadA"
  = Some [("step", PyInt 1); ("tags", PyList [PyStr "x"])] /\
  DiskBackedMemorySaver.init (Some "chk.json") final.2 = Ok final.1.
Proof.
  intros fresh final. split; [reflexivity|].
  apply (disk_saver_reload (R := example_runtime) "chk.json" ∅).
  - discriminate.
  - reflexivity.
  - reflexivity.
Defined.

Lemma disk_saver_init_edges_witness :
  DiskBackedMemorySaver.init (Some "chk.json")
    {[ "chk.json" := Unparsable ]}
  = Ok {| DiskBackedMemorySaver.base := MemorySaver.init;
          DiskBackedMemorySaver.persist_path := Some "chk.json" |}.
Proof.
  apply (disk_saver_init_edges "chk.json" {[ "chk.json" := Unparsable ]}
           ltac:(discriminate)).
  right. left. reflexivity.
Defined.

Lemma lint_exit_code_witness :
  Lint.main (fun cmd => match cmd with
                        | "mypy" :: _ => Lint.NotFound
                        | _ => Lint.Completed 0 "" ""
                        end) = 1.
Proof.
  apply lint_exit_code. vm_compute. discriminate.
Defined.

End more_witnesses.
